(** * Session metrics aggregation of [ViewResultsPage.tsx]

    A shallow embedding of [calculateMetrics], [calculatePerformanceComposite]
    and [calculateBalanceIndex] (src/src/pages/ViewResultsPage.tsx), and the
    properties of the session dependent-variables record they build.

    Numbers.  A JavaScript number that counts something (an array length, a
    tracked counter, a scenario id, a timestamp in milliseconds) is a [Z]; a
    number obtained by a division (seconds, ratios, the composite indices) is
    an exact rational [Q].  Rounding error of IEEE doubles is not modelled.
    [Math.round x] is [floor (x + 1/2)].

    Optional fields.  A field that the code guards with [||], [??], [?.] or
    an [if] is an [option]; JavaScript truthiness is written out
    ([truthyNum], [truthyStr], [truthyBool]). *)

From stdpp Require Import gmap strings list.
From Stdlib Require Import Ascii ZArith QArith Qround Qminmax Lqa Lia.

Local Open Scope string_scope.
Local Open Scope list_scope.
Local Open Scope Z_scope.

(** ** JavaScript primitives used by the page *)

Module JS.

(** [x || d] on an optional number: [undefined], [null] and [0] are falsy. *)
Definition truthyNum (x : option Z) : option Z :=
  match x with
  | Some v => if v =? 0 then None else Some v
  | None => None
  end.

Definition orNum (x : option Z) (d : Z) : Z :=
  match truthyNum x with Some v => v | None => d end.

(** [x || d] on an optional boolean. *)
Definition truthyBool (x : option bool) : bool :=
  match x with Some b => b | None => false end.

Definition orBool (x : option bool) (d : bool) : bool :=
  if truthyBool x then true else d.

(** [x || d] on an optional string: the empty string is falsy. *)
Definition truthyStr (x : option string) : option string :=
  match x with
  | Some s => if String.eqb s EmptyString then None else Some s
  | None => None
  end.

Definition orStr (x : option string) (d : string) : string :=
  match truthyStr x with Some s => s | None => d end.

(** [x || d] on an optional fraction: [undefined] and [0] are falsy. *)
Definition orQ (x : option Q) (d : Q) : Q :=
  match x with
  | Some v => if Qeq_bool v 0 then d else v
  | None => d
  end.

(** [x ?? d]. *)
Definition nullish {A} (x : option A) (d : A) : A :=
  match x with Some v => v | None => d end.

(** [String.prototype.toLowerCase], on the ASCII letters: a character
    outside A-Z is left as it is, so the model follows the source on ASCII
    strings only. *)
Definition lowerAscii (c : ascii) : ascii :=
  let n := nat_of_ascii c in
  if ((65 <=? n)%nat && (n <=? 90)%nat)%bool then ascii_of_nat (n + 32) else c.

Fixpoint toLowerCase (s : string) : string :=
  match s with
  | EmptyString => EmptyString
  | String c r => String (lowerAscii c) (toLowerCase r)
  end.

Definition upperAscii (c : ascii) : ascii :=
  let n := nat_of_ascii c in
  if ((97 <=? n)%nat && (n <=? 122)%nat)%bool then ascii_of_nat (n - 32) else c.

(** [v.charAt(0).toUpperCase() + v.slice(1)], on the ASCII letters (see
    [toLowerCase]). *)
Definition capitalize (s : string) : string :=
  match s with
  | EmptyString => EmptyString
  | String c r => String (upperAscii c) r
  end.

(** [Array.prototype.includes] on an array of strings. *)
Definition includes (l : list string) (x : string) : bool :=
  existsb (String.eqb x) l.

(** [arr.length] as a number. *)
Definition len {A} (l : list A) : Z := Z.of_nat (length l).

(** [arr.reduce((a, b) => a + b, 0)]. *)
Definition sumQ (l : list Q) : Q := fold_left Qplus l 0%Q.

Definition sumZ (l : list Z) : Z := fold_left Z.add l 0.

Definition Math_round (x : Q) : Q := inject_Z (Qfloor (x + (1 # 2))).

Definition Math_min (a b : Q) : Q := Qmin a b.

(** [Math.pow(x, 2)]. *)
Definition Math_pow2 (x : Q) : Q := (x * x)%Q.

(** [arr.forEach((x, index) => ...)] threading the variables the callback
    assigns to. *)
Fixpoint forEachFrom {A St} (f : St -> A -> nat -> St) (l : list A) (i : nat) (s : St) : St :=
  match l with
  | [] => s
  | x :: r => forEachFrom f r (S i) (f s x i)
  end.

Definition forEach {A St} (f : St -> A -> nat -> St) (l : list A) (s : St) : St :=
  forEachFrom f l 0%nat s.

(** [arr.find(p)]. *)
Definition find {A} (p : A -> bool) (l : list A) : option A := List.find p l.

End JS.

(** ** Data model *)

(** An entry of a stored value list: a bare identifier, or an object that
    may carry [id] and [name]. *)
Inductive ValueEntry : Type :=
| VText (s : string)
| VObject (id name : option string).

(** The item [MoralValuesReorderList] of local storage, when present: its
    text either parses to an array of entries or makes the inner [try]
    fail ([JSON.parse] throws, or the parsed value has no [map]). *)
Inductive ReorderPayload : Type :=
| Malformed
| Parsed (entries : list ValueEntry).

Record Flags : Type := {
  simulationMetricsReorderingFlag : option bool;
  moralValuesReorderingFlag : option bool
}.

Record TelemetryEvent : Type := {
  event : string;
  ev_scenarioId : option Z;
  cvrAnswer : option bool;
  valuesAfter : option (list string);
  preferenceType : option string;
  flagsAtConfirmation : option Flags
}.

Record ScenarioTracking : Type := {
  st_scenarioId : Z;
  startTime : option Z;
  endTime : option Z;
  switchCount : option Z;
  st_cvrVisited : option bool;
  st_cvrVisitCount : option Z;
  st_cvrYesAnswers : option Z;
  st_apaReordered : option bool;
  st_apaReorderCount : option Z
}.

Record Decision : Type := {
  label : option string;
  title : option string
}.

Record ScenarioOutcome : Type := {
  so_scenarioId : Z;
  decision : Decision
}.

Record SimulationMetrics : Type := {
  livesSaved : Q;
  humanCasualties : Q;
  firefightingResource : Q;
  infrastructureCondition : Q;
  biodiversityCondition : Q;
  propertiesCondition : Q;
  nuclearPowerStation : Q
}.

(** ** The composite metric calculators *)

Definition calculatePerformanceComposite (finalMetrics : SimulationMetrics) : Q :=
  let values : list Q :=
    [ JS.Math_min (livesSaved finalMetrics / 20000) 1;
      1 - JS.Math_min (humanCasualties finalMetrics / 1000) 1;
      firefightingResource finalMetrics / 100;
      infrastructureCondition finalMetrics / 100;
      biodiversityCondition finalMetrics / 100;
      propertiesCondition finalMetrics / 100;
      nuclearPowerStation finalMetrics / 100 ]%Q in
  let mean := (JS.sumQ values / inject_Z (JS.len values))%Q in
  (JS.Math_round (mean * 100) / 100)%Q.

Definition calculateBalanceIndex (finalMetrics : SimulationMetrics) : Q :=
  let normalized : list Q :=
    [ JS.Math_min (livesSaved finalMetrics / 20000) 1;
      1 - JS.Math_min (humanCasualties finalMetrics / 1000) 1;
      firefightingResource finalMetrics / 100;
      infrastructureCondition finalMetrics / 100;
      biodiversityCondition finalMetrics / 100;
      propertiesCondition finalMetrics / 100;
      nuclearPowerStation finalMetrics / 100 ]%Q in
  let mean := (JS.sumQ normalized / inject_Z (JS.len normalized))%Q in
  let variance :=
    (fold_left (fun acc val => acc + JS.Math_pow2 (val - mean)) normalized 0
       / inject_Z (JS.len normalized))%Q in
  (JS.Math_round ((1 - variance) * 100) / 100)%Q.

(** ** The session record *)

(** The object stored in [scenarioDetailsMap] for a tracked scenario, and
    the literal used when the map has no entry. *)
Record TrackingData : Type := {
  td_timeSeconds : Q;
  td_switches : Z;
  td_cvrVisited : bool;
  td_cvrVisitCount : Z;
  td_cvrYesAnswers : Z;
  td_apaReordered : bool;
  td_apaReorderCount : Z
}.

Record ScenarioDetail : Type := {
  scenarioId : Z;
  finalChoice : string;
  aligned : bool;
  switches : Z;
  timeSeconds : Q;
  cvrVisited : bool;
  cvrVisitCount : Z;
  cvrYesAnswers : Z;
  apaReordered : bool;
  apaReorderCount : Z
}.

Record Trajectory : Type := {
  vt_scenarioId : Z;
  vt_values : list string;
  vt_preferenceType : string
}.

Record SessionDVs : Type := {
  cvrArrivals : Z;
  cvrYesCount : Z;
  cvrNoCount : Z;
  apaReorderings : Z;
  misalignAfterCvrApaCount : Z;
  realignAfterCvrApaCount : Z;
  switchCountTotal : Z;
  avgDecisionTime : Q;
  decisionTimes : list Q;
  valueConsistencyIndex : Q;
  performanceComposite : Q;
  balanceIndex : Q;
  finalAlignmentByScenario : list bool;
  valueOrderTrajectories : list Trajectory;
  scenarioDetails : list ScenarioDetail
}.

(** ** Value lists *)

(** [({}).toString()]. *)
Definition objectText : string := "[object Object]".

(** [(v.name || v).toString().toLowerCase()]. *)
Definition matchedIdentifier (v : ValueEntry) : string :=
  JS.toLowerCase
    match v with
    | VText s => s
    | VObject _ name => JS.orStr name objectText
    end.

(** [(v.id || v.name || v).toString().toLowerCase()]. *)
Definition reorderIdentifier (v : ValueEntry) : string :=
  JS.toLowerCase
    match v with
    | VText s => s
    | VObject id name =>
        match JS.truthyStr id with
        | Some i => i
        | None => JS.orStr name objectText
        end
    end.

Definition resolveMatchedStableValues (matchedValues : list ValueEntry) : list string :=
  map matchedIdentifier matchedValues.

Definition resolveMoralValuesReorderList
    (matchedStableValues : list string) (moralValuesReorder : option ReorderPayload)
    : list string :=
  match moralValuesReorder with
  | Some (Parsed reorderedValues) => map reorderIdentifier reorderedValues
  | Some Malformed => matchedStableValues
  | None => matchedStableValues
  end.

(** ** Event views *)

(** [e.event === name]. *)
Definition isEvent (name : string) (e : TelemetryEvent) : bool :=
  String.eqb (event e) name.

(** [e.scenarioId === id]. *)
Definition inScenario (id : Z) (e : TelemetryEvent) : bool :=
  match ev_scenarioId e with
  | Some i => i =? id
  | None => false
  end.

(** [e.cvrAnswer === b]. *)
Definition answered (b : bool) (e : TelemetryEvent) : bool :=
  match cvrAnswer e with
  | Some a => Bool.eqb a b
  | None => false
  end.

Definition cvrOpenEventsOf (allEvents : list TelemetryEvent) : list TelemetryEvent :=
  List.filter (isEvent "cvr_opened") allEvents.

Definition cvrAnswerEventsOf (allEvents : list TelemetryEvent) : list TelemetryEvent :=
  List.filter (isEvent "cvr_answered") allEvents.

Definition apaEventsOf (allEvents : list TelemetryEvent) : list TelemetryEvent :=
  List.filter (isEvent "apa_reordered") allEvents.

(** ** Decision timing *)

(** [(scenario.endTime - scenario.startTime) / 1000]. *)
Definition elapsedSeconds (start finish : Z) : Q :=
  (inject_Z (finish - start) / 1000)%Q.

(** [scenario.endTime && scenario.startTime]. *)
Definition usableTiming (scenario : ScenarioTracking) : option (Z * Z) :=
  match JS.truthyNum (endTime scenario), JS.truthyNum (startTime scenario) with
  | Some finish, Some start => Some (start, finish)
  | _, _ => None
  end.

Definition trackedData (scenario : ScenarioTracking) (timeSeconds : Q) : TrackingData :=
  {| td_timeSeconds := JS.Math_round timeSeconds;
     td_switches := JS.orNum (switchCount scenario) 0;
     td_cvrVisited := JS.orBool (st_cvrVisited scenario) false;
     td_cvrVisitCount := JS.orNum (st_cvrVisitCount scenario) 0;
     td_cvrYesAnswers := JS.orNum (st_cvrYesAnswers scenario) 0;
     td_apaReordered := JS.orBool (st_apaReordered scenario) false;
     td_apaReorderCount := JS.orNum (st_apaReorderCount scenario) 0 |}.

(** The body of [scenarioHistory.forEach]: it pushes on [decisionTimes] and
    sets an entry of [scenarioDetailsMap]. *)
Definition trackScenario
    (acc : list Q * gmap Z TrackingData) (scenario : ScenarioTracking) (index : nat)
    : list Q * gmap Z TrackingData :=
  match usableTiming scenario with
  | Some (start, finish) =>
      let timeSeconds := elapsedSeconds start finish in
      (acc.1 ++ [timeSeconds],
       <[st_scenarioId scenario := trackedData scenario timeSeconds]> acc.2)
  | None => acc
  end.

(** [if (decisionTimes.length === 0) simulationOutcomes.forEach(() => push(75))]. *)
Definition fallbackTimes
    (simulationOutcomes : list ScenarioOutcome) (decisionTimes : list Q) : list Q :=
  if JS.len decisionTimes =? 0
  then JS.forEach (fun acc _ _ => acc ++ [75%Q]) simulationOutcomes decisionTimes
  else decisionTimes.

Definition average (decisionTimes : list Q) : Q :=
  if 0 <? JS.len decisionTimes
  then (JS.sumQ decisionTimes / inject_Z (JS.len decisionTimes))%Q
  else 0%Q.

(** ** Alignment and scenario details *)

(** [valueExistsInList], by scenario id. *)
Definition valueExistsInList
    (matchedStableValues moralValuesReorderList : list string)
    (scenarioId : Z) (optionValue : string) : bool :=
  if scenarioId =? 1 then JS.includes matchedStableValues optionValue
  else if (scenarioId =? 2) || (scenarioId =? 3)
       then JS.includes moralValuesReorderList optionValue
       else false.

(** The literal that replaces a missing entry of [scenarioDetailsMap]. *)
Definition untrackedData (decisionTimes : list Q) (index : nat) : TrackingData :=
  {| td_timeSeconds := JS.Math_round (JS.orQ (decisionTimes !! index) 0);
     td_switches := 0;
     td_cvrVisited := false;
     td_cvrVisitCount := 0;
     td_cvrYesAnswers := 0;
     td_apaReordered := false;
     td_apaReorderCount := 0 |}.

(** [x || y] on numbers that are always defined. *)
Definition orElse (x y : Z) : Z := if x =? 0 then y else x.

Section PerOutcome.

Variable matchedStableValues moralValuesReorderList : list string.
Variable allEvents : list TelemetryEvent.
Variable decisionTimes : list Q.
Variable scenarioDetailsMap : gmap Z TrackingData.

Definition scenarioCvrVisitsOf (outcome : ScenarioOutcome) : list TelemetryEvent :=
  List.filter (inScenario (so_scenarioId outcome)) (cvrOpenEventsOf allEvents).

Definition scenarioCvrYesAnswersOf (outcome : ScenarioOutcome) : list TelemetryEvent :=
  List.filter (fun e => inScenario (so_scenarioId outcome) e && answered true e)
    (cvrAnswerEventsOf allEvents).

Definition scenarioOptionSelectionsOf (outcome : ScenarioOutcome) : list TelemetryEvent :=
  List.filter (fun e => isEvent "option_selected" e && inScenario (so_scenarioId outcome) e)
    allEvents.

Definition scenarioApaEventsOf (outcome : ScenarioOutcome) : list TelemetryEvent :=
  List.filter (inScenario (so_scenarioId outcome)) (apaEventsOf allEvents).

Definition alignedOf (outcome : ScenarioOutcome) : bool :=
  let optionValue := JS.toLowerCase (JS.orStr (label (decision outcome)) EmptyString) in
  valueExistsInList matchedStableValues moralValuesReorderList
    (so_scenarioId outcome) optionValue
  && (JS.len (scenarioCvrYesAnswersOf outcome) =? 0).

Definition trackingDataOf (outcome : ScenarioOutcome) (index : nat) : TrackingData :=
  match scenarioDetailsMap !! so_scenarioId outcome with
  | Some data => data
  | None => untrackedData decisionTimes index
  end.

Definition detailOf (outcome : ScenarioOutcome) (index : nat) : ScenarioDetail :=
  let scenarioCvrVisits := scenarioCvrVisitsOf outcome in
  let scenarioCvrYesAnswers := scenarioCvrYesAnswersOf outcome in
  let trackingData := trackingDataOf outcome index in
  let switchCount := Z.max 0 (JS.len (scenarioOptionSelectionsOf outcome) - 1) in
  let scenarioApaEvents := scenarioApaEventsOf outcome in
  {| scenarioId := so_scenarioId outcome;
     finalChoice :=
       match JS.truthyStr (title (decision outcome)) with
       | Some t => t
       | None => JS.orStr (label (decision outcome)) "Unknown"
       end;
     aligned := alignedOf outcome;
     switches := orElse (td_switches trackingData) switchCount;
     timeSeconds := td_timeSeconds trackingData;
     cvrVisited := td_cvrVisited trackingData || (0 <? JS.len scenarioCvrVisits);
     cvrVisitCount := orElse (td_cvrVisitCount trackingData) (JS.len scenarioCvrVisits);
     cvrYesAnswers := orElse (td_cvrYesAnswers trackingData) (JS.len scenarioCvrYesAnswers);
     apaReordered := td_apaReordered trackingData || (0 <? JS.len scenarioApaEvents);
     apaReorderCount := orElse (td_apaReorderCount trackingData) (JS.len scenarioApaEvents) |}.

(** The body of [simulationOutcomes.forEach]: it pushes on
    [finalAlignmentByScenario] and on [scenarioDetails]. *)
Definition recordOutcome
    (acc : list bool * list ScenarioDetail) (outcome : ScenarioOutcome) (index : nat)
    : list bool * list ScenarioDetail :=
  (acc.1 ++ [alignedOf outcome], acc.2 ++ [detailOf outcome index]).

(** ** Misalignment and realignment counters *)

Definition confirmationEventOf (scenario : ScenarioDetail) : option TelemetryEvent :=
  let scenarioEvents := List.filter (inScenario (scenarioId scenario)) allEvents in
  JS.find (isEvent "option_confirmed") scenarioEvents.

(** [confirmationEvent?.flagsAtConfirmation], and the test made on it. *)
Definition reorderedAtConfirmation (scenario : ScenarioDetail) : bool :=
  match confirmationEventOf scenario with
  | Some confirmationEvent =>
      match flagsAtConfirmation confirmationEvent with
      | Some flags =>
          let hadSimulationMetricsReordering :=
            JS.nullish (simulationMetricsReorderingFlag flags) false in
          let hadMoralValuesReordering :=
            JS.nullish (moralValuesReorderingFlag flags) false in
          hadSimulationMetricsReordering || hadMoralValuesReordering
      | None => false
      end
  | None => false
  end.

(** The body of [scenarioDetails.forEach]; the accumulator is
    [(misalignAfterCvrApaCount, realignAfterCvrApaCount)]. *)
Definition countScenario (acc : Z * Z) (scenario : ScenarioDetail) (index : nat) : Z * Z :=
  let realign := if reorderedAtConfirmation scenario then acc.2 + 1 else acc.2 in
  let misalign := if negb (aligned scenario) then acc.1 + 1 else acc.1 in
  (misalign, realign).

End PerOutcome.

(** The body of [apaEvents.forEach]. *)
Definition recordTrajectory
    (acc : list Trajectory) (e : TelemetryEvent) (index : nat) : list Trajectory :=
  match valuesAfter e, ev_scenarioId e with
  | Some values, Some id =>
      acc ++ [ {| vt_scenarioId := id;
                  vt_values := values;
                  vt_preferenceType := JS.orStr (preferenceType e) "unknown" |} ]
  | _, _ => acc
  end.

(** ** The orchestrator *)

(** What [calculateMetrics] reads: items of local storage as parsed, the
    tracking manager's history and event log, the session id, and whether
    the sink accepts the write. *)
Record Env : Type := {
  simulationOutcomes : list ScenarioOutcome;
  finalMetrics : option SimulationMetrics;
  matchedValues : list ValueEntry;
  moralValuesReorder : option ReorderPayload;
  scenarioHistory : list ScenarioTracking;
  allEvents : list TelemetryEvent;
  sessionId : string;
  sinkAccepts : bool;
  isSilentMode : bool
}.

(** The computation between the guard and [setMetrics]. *)
Definition sessionDVs (env : Env) (finalMetrics : SimulationMetrics) : SessionDVs :=
  let matchedStableValues := resolveMatchedStableValues (matchedValues env) in
  let moralValuesReorderList :=
    resolveMoralValuesReorderList matchedStableValues (moralValuesReorder env) in
  let cvrOpenEvents := cvrOpenEventsOf (allEvents env) in
  let cvrAnswerEvents := cvrAnswerEventsOf (allEvents env) in
  let apaEvents := apaEventsOf (allEvents env) in
  let tracked := JS.forEach trackScenario (scenarioHistory env) ([], ∅) in
  let decisionTimes := fallbackTimes (simulationOutcomes env) tracked.1 in
  let scenarioDetailsMap := tracked.2 in
  let recorded :=
    JS.forEach
      (recordOutcome matchedStableValues moralValuesReorderList (allEvents env)
         decisionTimes scenarioDetailsMap)
      (simulationOutcomes env) ([], []) in
  let finalAlignmentByScenario := recorded.1 in
  let scenarioDetails := recorded.2 in
  let alignedCount := JS.len (List.filter (fun b : bool => b) finalAlignmentByScenario) in
  let counts := JS.forEach (countScenario (allEvents env)) scenarioDetails (0, 0) in
  {| cvrArrivals := JS.len cvrOpenEvents;
     cvrYesCount := JS.len (List.filter (answered true) cvrAnswerEvents);
     cvrNoCount := JS.len (List.filter (answered false) cvrAnswerEvents);
     apaReorderings := JS.len apaEvents;
     misalignAfterCvrApaCount := counts.1;
     realignAfterCvrApaCount := counts.2;
     switchCountTotal := JS.sumZ (map switches scenarioDetails);
     avgDecisionTime := average decisionTimes;
     decisionTimes := decisionTimes;
     valueConsistencyIndex :=
       if 0 <? JS.len finalAlignmentByScenario
       then (inject_Z alignedCount / inject_Z (JS.len finalAlignmentByScenario))%Q
       else 0%Q;
     performanceComposite := calculatePerformanceComposite finalMetrics;
     balanceIndex := calculateBalanceIndex finalMetrics;
     finalAlignmentByScenario := finalAlignmentByScenario;
     valueOrderTrajectories := JS.forEach recordTrajectory apaEvents [];
     scenarioDetails := scenarioDetails |}.

(** The argument of [MongoService.insertSessionMetrics]: the session id, the
    computed record and the capitalised reorder list.  The other fields of
    the payload are items of local storage copied into it unchanged. *)
Record SessionMetricsPayload : Type := {
  session_id : string;
  computed : SessionDVs;
  moral_values_reorder_list : list string
}.

(** What the attempt can change: the component's [metrics] state, the item
    [metricsCalculated] of session storage, the writes the sink has
    accepted, and whether the page has asked to go to [/thank-you]. *)
Record Page : Type := {
  metrics : option SessionDVs;
  metricsCalculated : bool;
  inserted : list SessionMetricsPayload;
  leftForThankYou : bool
}.

Definition calculateMetrics (env : Env) (page : Page) : Page :=
  match JS.len (simulationOutcomes env) =? 0, finalMetrics env with
  | false, Some m =>
      let calculatedMetrics := sessionDVs env m in
      let payload :=
        {| session_id := sessionId env;
           computed := calculatedMetrics;
           moral_values_reorder_list :=
             map JS.capitalize
               (resolveMoralValuesReorderList
                  (resolveMatchedStableValues (matchedValues env))
                  (moralValuesReorder env)) |} in
      (* [setMetrics]; [await insertSessionMetrics]; then the flag is set
         after the write or, when the write fails, in the [catch]. *)
      {| metrics := Some calculatedMetrics;
         metricsCalculated := true;
         inserted :=
           if sinkAccepts env then inserted page ++ [payload] else inserted page;
         leftForThankYou := if isSilentMode env then true else leftForThankYou page |}
  | _, _ =>
      (* [console.error('Missing required data ...'); return;] *)
      page
  end.

(** The effect run when the page mounts. *)
Definition useEffect (env : Env) (page : Page) : Page :=
  if isSilentMode env && metricsCalculated page
  then {| metrics := metrics page;
          metricsCalculated := metricsCalculated page;
          inserted := inserted page;
          leftForThankYou := true |}
  else calculateMetrics env page.

(** The page as it is before the effect runs. *)
Definition freshPage (alreadyCalculated : bool) : Page :=
  {| metrics := None;
     metricsCalculated := alreadyCalculated;
     inserted := [];
     leftForThankYou := false |}.

(** ** Views of the inputs used to state the properties *)

(** The elapsed seconds of a tracking record with usable timing. *)
Definition timedSeconds (scenario : ScenarioTracking) : option Q :=
  match usableTiming scenario with
  | Some (start, finish) => Some (elapsedSeconds start finish)
  | None => None
  end.

Definition timedHistory (history : list ScenarioTracking) : list Q :=
  omap timedSeconds history.

Definition isTimed (id : Z) (scenario : ScenarioTracking) : bool :=
  (st_scenarioId scenario =? id) && bool_decide (is_Some (usableTiming scenario)).

(** The last record of the history, for scenario [id], with usable timing. *)
Fixpoint lastTimed (id : Z) (history : list ScenarioTracking) : option ScenarioTracking :=
  match history with
  | [] => None
  | scenario :: rest =>
      match lastTimed id rest with
      | Some later => Some later
      | None => if isTimed id scenario then Some scenario else None
      end
  end.

(** The first [option_confirmed] event of scenario [id] in the log. *)
Definition firstConfirmed (events : list TelemetryEvent) (id : Z) : option TelemetryEvent :=
  List.find (fun e => inScenario id e && isEvent "option_confirmed" e) events.

(** An answered-yes event of scenario [id]. *)
Definition cvrYesEvent (id : Z) (e : TelemetryEvent) : Prop :=
  event e = "cvr_answered" /\ ev_scenarioId e = Some id /\ cvrAnswer e = Some true.

(** The two resolved value lists and the tracking map of a session, as
    [sessionDVs] binds them. *)
Definition matchedStableValuesOf (env : Env) : list string :=
  resolveMatchedStableValues (matchedValues env).

Definition moralValuesReorderListOf (env : Env) : list string :=
  resolveMoralValuesReorderList (matchedStableValuesOf env) (moralValuesReorder env).

Definition scenarioDetailsMapOf (env : Env) : gmap Z TrackingData :=
  (JS.forEach trackScenario (scenarioHistory env) ([], ∅)).2.

(** The reference set of scenario [id]. *)
Definition referenceSet (env : Env) (id : Z) : list string :=
  if decide (id = 1) then matchedStableValuesOf env
  else if decide (id = 2 \/ id = 3) then moralValuesReorderListOf env
  else [].

(** The first confirmation of the scenario carries flags, one of them true. *)
Definition reorderedWhenConfirmed (events : list TelemetryEvent) (id : Z) : Prop :=
  exists e flags,
    firstConfirmed events id = Some e
    /\ flagsAtConfirmation e = Some flags
    /\ (simulationMetricsReorderingFlag flags = Some true
        \/ moralValuesReorderingFlag flags = Some true).

(** Both timestamps of the record are present and non-zero: the test
    [scenario.endTime && scenario.startTime]. *)
Definition bothTimestamps (scenario : ScenarioTracking) (start finish : Z) : Prop :=
  startTime scenario = Some start /\ endTime scenario = Some finish
  /\ start <> 0 /\ finish <> 0.


(** Every field of the snapshot is non-negative. *)
Definition nonNegative (m : SimulationMetrics) : Prop :=
  (0 <= livesSaved m /\ 0 <= humanCasualties m /\ 0 <= firefightingResource m
   /\ 0 <= infrastructureCondition m /\ 0 <= biodiversityCondition m
   /\ 0 <= propertiesCondition m /\ 0 <= nuclearPowerStation m)%Q.

(** The five condition fields are on their 0-100 scale. *)
Definition onScale (m : SimulationMetrics) : Prop :=
  (firefightingResource m <= 100 /\ infrastructureCondition m <= 100
   /\ biodiversityCondition m <= 100 /\ propertiesCondition m <= 100
   /\ nuclearPowerStation m <= 100)%Q.

(** The number of elements of [l] that satisfy [p]. *)
Definition countIf {A} (p : A -> bool) (l : list A) : Z :=
  Z.of_nat (length (List.filter p l)).

(** ** Sample sessions *)

Module Sample.

Definition anEvent (kind : string) (id : Z) : TelemetryEvent :=
  {| event := kind; ev_scenarioId := Some id; cvrAnswer := None;
     valuesAfter := None; preferenceType := None; flagsAtConfirmation := None |}.

Definition answer (id : Z) (yes : bool) : TelemetryEvent :=
  {| event := "cvr_answered"; ev_scenarioId := Some id; cvrAnswer := Some yes;
     valuesAfter := None; preferenceType := None; flagsAtConfirmation := None |}.

Definition confirmed (id : Z) (sim moral : option bool) : TelemetryEvent :=
  {| event := "option_confirmed"; ev_scenarioId := Some id; cvrAnswer := None;
     valuesAfter := None; preferenceType := None;
     flagsAtConfirmation :=
       Some {| simulationMetricsReorderingFlag := sim;
               moralValuesReorderingFlag := moral |} |}.

Definition outcome (id : Z) (choice : string) : ScenarioOutcome :=
  {| so_scenarioId := id; decision := {| label := Some choice; title := None |} |}.

Definition tracked (id : Z) (start finish : option Z) (switched : option Z)
    : ScenarioTracking :=
  {| st_scenarioId := id; startTime := start; endTime := finish;
     switchCount := switched; st_cvrVisited := None; st_cvrVisitCount := None;
     st_cvrYesAnswers := None; st_apaReordered := None; st_apaReorderCount := None |}.

(** The snapshot of the round-trip example. *)
Definition best : SimulationMetrics :=
  {| livesSaved := 20000; humanCasualties := 0; firefightingResource := 100;
     infrastructureCondition := 100; biodiversityCondition := 100;
     propertiesCondition := 100; nuclearPowerStation := 100 |}.

(** A snapshot whose firefighting resource is off the 0-100 scale. *)
Definition offScale : SimulationMetrics :=
  {| livesSaved := 0; humanCasualties := 0; firefightingResource := 1000;
     infrastructureCondition := 0; biodiversityCondition := 0;
     propertiesCondition := 0; nuclearPowerStation := 0 |}.

Definition midway : SimulationMetrics :=
  {| livesSaved := 12000; humanCasualties := 250; firefightingResource := 40;
     infrastructureCondition := 75; biodiversityCondition := 60;
     propertiesCondition := 90; nuclearPowerStation := 100 |}.

(** Three scenarios; the first is timed (60.5 s) with a tracked switch
    count, the second is tracked without timestamps, the third is not
    tracked. *)
Definition session : Env :=
  {| simulationOutcomes :=
       [ outcome 1 "Safety"; outcome 2 "Fairness"; outcome 3 "Autonomy" ];
     finalMetrics := Some midway;
     matchedValues := [ VObject None (Some "Safety"); VText "Efficiency" ];
     moralValuesReorder :=
       Some (Parsed [ VObject (Some "fairness") None; VText "Autonomy" ]);
     scenarioHistory :=
       [ tracked 1 (Some 1000) (Some 61500) (Some 4);
         tracked 2 None None (Some 5) ];
     allEvents :=
       [ anEvent "cvr_opened" 1; answer 1 false;
         anEvent "option_selected" 2; anEvent "option_selected" 2;
         anEvent "option_selected" 2; confirmed 2 None (Some true);
         anEvent "cvr_opened" 3; answer 3 true; confirmed 3 (Some false) None ];
     sessionId := "session-1";
     sinkAccepts := true;
     isSilentMode := true |}.

(** The same session with nothing under [simulationScenarioOutcomes]. *)
Definition noOutcomes : Env :=
  {| simulationOutcomes := [];
     finalMetrics := Some midway;
     matchedValues := matchedValues session;
     moralValuesReorder := moralValuesReorder session;
     scenarioHistory := scenarioHistory session;
     allEvents := allEvents session;
     sessionId := "session-1";
     sinkAccepts := true;
     isSilentMode := true |}.

(** The same session with nothing under [finalSimulationMetrics]. *)
Definition noSnapshot : Env :=
  {| simulationOutcomes := simulationOutcomes session;
     finalMetrics := None;
     matchedValues := matchedValues session;
     moralValuesReorder := moralValuesReorder session;
     scenarioHistory := scenarioHistory session;
     allEvents := allEvents session;
     sessionId := "session-1";
     sinkAccepts := true;
     isSilentMode := true |}.

(** One scenario, reordered at confirmation and not aligned. *)
Definition both : Env :=
  {| simulationOutcomes := [ outcome 1 "Courage" ];
     finalMetrics := Some midway;
     matchedValues := [ VText "Safety" ];
     moralValuesReorder := None;
     scenarioHistory := [];
     allEvents := [ confirmed 1 (Some true) None ];
     sessionId := "session-2";
     sinkAccepts := true;
     isSilentMode := false |}.

(** One scenario, aligned and confirmed without reordering. *)
Definition neither : Env :=
  {| simulationOutcomes := [ outcome 1 "Safety" ];
     finalMetrics := Some midway;
     matchedValues := [ VText "Safety" ];
     moralValuesReorder := None;
     scenarioHistory := [];
     allEvents := [ confirmed 1 None (Some false) ];
     sessionId := "session-3";
     sinkAccepts := true;
     isSilentMode := false |}.

(** Two scenarios, both tracked with timestamps, in outcome order. *)
Definition inOrder : Env :=
  {| simulationOutcomes := [ outcome 1 "Safety"; outcome 2 "Fairness" ];
     finalMetrics := Some midway;
     matchedValues := [ VText "Safety" ];
     moralValuesReorder := Some Malformed;
     scenarioHistory :=
       [ tracked 1 (Some 1000) (Some 31000) None;
         tracked 2 (Some 40000) (Some 52500) (Some 1) ];
     allEvents := [];
     sessionId := "session-4";
     sinkAccepts := false;
     isSilentMode := false |}.

(** Three scenarios and no usable timing: the first tracking record has
    no timestamps and the second a start time of 0.  One visit and one yes
    answer belong to a scenario that is not among the outcomes. *)
Definition untimed : Env :=
  {| simulationOutcomes :=
       [ outcome 1 "Safety"; outcome 2 "Fairness"; outcome 3 "Autonomy" ];
     finalMetrics := Some midway;
     matchedValues := [ VText "Safety" ];
     moralValuesReorder := None;
     scenarioHistory :=
       [ tracked 1 None None (Some 2); tracked 2 (Some 0) (Some 500) None ];
     allEvents :=
       [ anEvent "cvr_opened" 1; anEvent "cvr_opened" 2; anEvent "cvr_opened" 2;
         anEvent "cvr_opened" 7; answer 1 true; answer 2 false; answer 7 true;
         anEvent "apa_reordered" 2; anEvent "apa_reordered" 3;
         anEvent "option_selected" 1; anEvent "option_selected" 1 ];
     sessionId := "session-5";
     sinkAccepts := true;
     isSilentMode := false |}.

(** One scenario whose decision has both a title and a label, and one
    whose title is empty. *)
Definition titled : Env :=
  {| simulationOutcomes :=
       [ {| so_scenarioId := 1;
            decision := {| label := Some "Safety"; title := Some "Protect lives" |} |};
         {| so_scenarioId := 2;
            decision := {| label := Some "Fairness"; title := Some EmptyString |} |};
         {| so_scenarioId := 3;
            decision := {| label := None; title := None |} |} ];
     finalMetrics := Some midway;
     matchedValues := [ VText "Safety" ];
     moralValuesReorder := None;
     scenarioHistory := [];
     allEvents := [];
     sessionId := "session-6";
     sinkAccepts := true;
     isSilentMode := false |}.

End Sample.

(** * Properties *)

(** ** Rounding and bounds *)

Section Rounding.

Local Open Scope Q_scope.

Lemma Math_round_le (x : Q) (n : Z) :
  x <= inject_Z n -> JS.Math_round x <= inject_Z n.
Proof.
  intros Hx. unfold JS.Math_round. rewrite <- Zle_Qle.
  pose proof (Qfloor_le (x + (1 # 2))) as Hfl.
  assert (Hlt : inject_Z (Qfloor (x + (1 # 2))) < inject_Z (n + 1)).
  { rewrite inject_Z_plus. change (inject_Z 1) with 1.
    set (a := inject_Z (Qfloor (x + (1 # 2)))) in *.
    set (b := inject_Z n) in *. lra. }
  rewrite <- Zlt_Qlt in Hlt. lia.
Qed.

Lemma Math_round_ge (x : Q) (n : Z) :
  inject_Z n <= x -> inject_Z n <= JS.Math_round x.
Proof.
  intros Hx. unfold JS.Math_round. rewrite <- Zle_Qle.
  rewrite <- (Qfloor_Z n). apply Qfloor_resp_le.
  set (b := inject_Z n) in *. lra.
Qed.

(** [Math.round] returns a whole number, at most half a unit away. *)
Lemma Math_round_nearest (x : Q) :
  x - (1 # 2) < JS.Math_round x /\ JS.Math_round x <= x + (1 # 2).
Proof.
  unfold JS.Math_round.
  pose proof (Qfloor_le (x + (1 # 2))) as Hle.
  pose proof (Qlt_floor (x + (1 # 2))) as Hlt.
  rewrite inject_Z_plus in Hlt. change (inject_Z 1) with 1 in Hlt.
  set (a := inject_Z (Qfloor (x + (1 # 2)))) in *. split; lra.
Qed.

Lemma Math_round_comp (x y : Q) : x == y -> JS.Math_round x = JS.Math_round y.
Proof.
  intros Hxy. unfold JS.Math_round. f_equal. apply Qfloor_comp.
  rewrite Hxy. reflexivity.
Qed.

Lemma Math_min_le_r (a b : Q) : JS.Math_min a b <= b.
Proof. apply Q.le_min_r. Qed.

Lemma Math_min_nonneg (a b : Q) : 0 <= a -> 0 <= b -> 0 <= JS.Math_min a b.
Proof. intros. apply Q.min_glb; assumption. Qed.

Lemma hundredth_le_1 (x : Q) : x <= 100 -> x / 100 <= 1.
Proof. intros Hx. apply Qle_shift_div_r; lra. Qed.

Lemma hundredth_ge_0 (x : Q) : 0 <= x -> 0 <= x / 100.
Proof. intros Hx. apply Qle_shift_div_l; lra. Qed.

End Rounding.

(** ** The composite indices *)

Section Composite.

Local Open Scope Q_scope.

Lemma performanceComposite_nonneg (m : SimulationMetrics) :
  nonNegative m -> 0 <= calculatePerformanceComposite m.
Proof.
  intros (Hl & Hh & Hf & Hi & Hb & Hp & Hn).
  unfold calculatePerformanceComposite.
  apply hundredth_ge_0. apply (Math_round_ge _ 0).
  change (inject_Z 0) with 0.
  unfold JS.sumQ, JS.len. simpl fold_left. simpl length.
  change (inject_Z (Z.of_nat 7)) with 7.
  assert (H1 : 0 <= JS.Math_min (livesSaved m / 20000) 1).
  { apply Math_min_nonneg; [apply Qle_shift_div_l; lra | lra]. }
  pose proof (Math_min_le_r (humanCasualties m / 1000) 1) as H2.
  apply hundredth_ge_0 in Hf, Hi, Hb, Hp, Hn.
  set (a := JS.Math_min (livesSaved m / 20000) 1) in *.
  set (b := JS.Math_min (humanCasualties m / 1000) 1) in *.
  set (c1 := firefightingResource m / 100) in *.
  set (c2 := infrastructureCondition m / 100) in *.
  set (c3 := biodiversityCondition m / 100) in *.
  set (c4 := propertiesCondition m / 100) in *.
  set (c5 := nuclearPowerStation m / 100) in *.
  apply Qmult_le_0_compat; [| lra].
  apply Qle_shift_div_l; lra.
Qed.

Lemma performanceComposite_le_1 (m : SimulationMetrics) :
  0 <= humanCasualties m -> onScale m -> calculatePerformanceComposite m <= 1.
Proof.
  intros Hh (Hf & Hi & Hb & Hp & Hn).
  unfold calculatePerformanceComposite.
  apply hundredth_le_1. apply (Math_round_le _ 100).
  change (inject_Z 100) with 100.
  unfold JS.sumQ, JS.len. simpl fold_left. simpl length.
  change (inject_Z (Z.of_nat 7)) with 7.
  pose proof (Math_min_le_r (livesSaved m / 20000) 1) as H1.
  assert (H2 : 0 <= JS.Math_min (humanCasualties m / 1000) 1).
  { apply Math_min_nonneg; [apply Qle_shift_div_l; lra | lra]. }
  apply hundredth_le_1 in Hf, Hi, Hb, Hp, Hn.
  set (a := JS.Math_min (livesSaved m / 20000) 1) in *.
  set (b := JS.Math_min (humanCasualties m / 1000) 1) in *.
  set (c1 := firefightingResource m / 100) in *.
  set (c2 := infrastructureCondition m / 100) in *.
  set (c3 := biodiversityCondition m / 100) in *.
  set (c4 := propertiesCondition m / 100) in *.
  set (c5 := nuclearPowerStation m / 100) in *.
  assert (Hs : (0 + a + (1 - b) + c1 + c2 + c3 + c4 + c5) / 7 <= 1).
  { apply Qle_shift_div_r; lra. }
  lra.
Qed.

(** The variance is a sum of squares, so the index never exceeds one. *)
Lemma balanceIndex_le_1 (m : SimulationMetrics) : calculateBalanceIndex m <= 1.
Proof.
  unfold calculateBalanceIndex.
  apply hundredth_le_1. apply (Math_round_le _ 100).
  change (inject_Z 100) with 100.
  unfold JS.sumQ, JS.len. simpl fold_left. simpl length.
  change (inject_Z (Z.of_nat 7)) with 7. unfold JS.Math_pow2.
  set (a := JS.Math_min (livesSaved m / 20000) 1).
  set (b := 1 - JS.Math_min (humanCasualties m / 1000) 1).
  set (c1 := firefightingResource m / 100).
  set (c2 := infrastructureCondition m / 100).
  set (c3 := biodiversityCondition m / 100).
  set (c4 := propertiesCondition m / 100).
  set (c5 := nuclearPowerStation m / 100).
  set (mean := (0 + a + b + c1 + c2 + c3 + c4 + c5) / 7).
  assert (Hv : 0 <= (0 + (a - mean) * (a - mean) + (b - mean) * (b - mean)
                     + (c1 - mean) * (c1 - mean) + (c2 - mean) * (c2 - mean)
                     + (c3 - mean) * (c3 - mean) + (c4 - mean) * (c4 - mean)
                     + (c5 - mean) * (c5 - mean)) / 7).
  { apply Qle_shift_div_l; [lra |].
    assert (Hsq : forall x : Q, 0 <= x * x).
    { intros x. destruct (Qlt_le_dec x 0); nra. }
    pose proof (Hsq (a - mean)). pose proof (Hsq (b - mean)).
    pose proof (Hsq (c1 - mean)). pose proof (Hsq (c2 - mean)).
    pose proof (Hsq (c3 - mean)). pose proof (Hsq (c4 - mean)).
    pose proof (Hsq (c5 - mean)).
    lra. }
  lra.
Qed.


(** X18.  For every snapshot whose seven fields are non-negative,
    [performanceComposite] is at least 0 and [balanceIndex] is at most 1;
    [performanceComposite] is at most 1 when, in addition, the five
    condition fields are on their 0-100 scale. *)
Theorem composite_indices_bounded (m : SimulationMetrics) :
  nonNegative m ->
  0 <= calculatePerformanceComposite m
  /\ calculateBalanceIndex m <= 1
  /\ (onScale m -> calculatePerformanceComposite m <= 1).
Proof.
  intros Hm. split; [| split].
  - apply performanceComposite_nonneg, Hm.
  - apply balanceIndex_le_1.
  - intros Hs. apply performanceComposite_le_1; [| exact Hs]. apply Hm.
Qed.

Lemma composite_indices_bounded_witness :
  nonNegative Sample.midway /\ onScale Sample.midway
  /\ 0 <= calculatePerformanceComposite Sample.midway <= 1
  /\ calculateBalanceIndex Sample.midway <= 1.
Proof.
  assert (Hm : nonNegative Sample.midway).
  { repeat split; vm_compute; discriminate. }
  assert (Hs : onScale Sample.midway).
  { repeat split; vm_compute; discriminate. }
  destruct (composite_indices_bounded Sample.midway Hm) as (H0 & Hb & H1).
  split; [exact Hm |]. split; [exact Hs |].
  split; [split; [exact H0 | exact (H1 Hs)] | exact Hb].
Defined.

(** C6.  A snapshot of non-negative fields whose firefighting resource is
    1000 has a performance composite of 1.57, above 1, and a balance index
    of -10.96: the five condition fields are divided by 100 without the cap
    that the first two dimensions get. *)
Theorem composite_off_scale_exceeds_1 :
  nonNegative Sample.offScale
  /\ calculatePerformanceComposite Sample.offScale == 157 # 100
  /\ 1 < calculatePerformanceComposite Sample.offScale
  /\ calculateBalanceIndex Sample.offScale == - (1096 # 100).
Proof. repeat split; vm_compute; congruence. Qed.

(** C9.  On the snapshot with 20000 lives saved, no casualties and every
    condition at 100, both indices are exactly 1. *)
Theorem round_trip_snapshot :
  calculatePerformanceComposite
    {| livesSaved := 20000; humanCasualties := 0; firefightingResource := 100;
       infrastructureCondition := 100; biodiversityCondition := 100;
       propertiesCondition := 100; nuclearPowerStation := 100 |} == 1
  /\ calculateBalanceIndex
    {| livesSaved := 20000; humanCasualties := 0; firefightingResource := 100;
       infrastructureCondition := 100; biodiversityCondition := 100;
       propertiesCondition := 100; nuclearPowerStation := 100 |} == 1.
Proof. split; vm_compute; reflexivity. Qed.

End Composite.

(** ** The loops, as functions of their input lists *)

Section Loops.

(** [scenarioHistory.forEach]: the times pushed. *)
Lemma trackScenario_times (history : list ScenarioTracking) (i : nat)
    (acc : list Q * gmap Z TrackingData) :
  (JS.forEachFrom trackScenario history i acc).1 = acc.1 ++ timedHistory history.
Proof.
  revert i acc. induction history as [| scenario rest IH]; intros i acc; simpl.
  - by rewrite app_nil_r.
  - rewrite IH. unfold trackScenario, timedHistory, timedSeconds. simpl.
    destruct (usableTiming scenario) as [[start finish] |]; simpl.
    + by rewrite <- app_assoc.
    + done.
Qed.

(** [scenarioHistory.forEach]: the entry left in the map for a scenario
    is that of its last record with usable timing. *)
Lemma trackScenario_lookup (history : list ScenarioTracking) (i : nat)
    (acc : list Q * gmap Z TrackingData) (id : Z) :
  (JS.forEachFrom trackScenario history i acc).2 !! id =
    match lastTimed id history with
    | Some scenario =>
        trackedData scenario <$> timedSeconds scenario
    | None => acc.2 !! id
    end.
Proof.
  revert i acc. induction history as [| scenario rest IH]; intros i acc; simpl.
  - done.
  - rewrite IH. destruct (lastTimed id rest) as [later |]; [done |].
    unfold trackScenario, isTimed, timedSeconds.
    destruct (usableTiming scenario) as [[start finish] |] eqn:Hu; simpl.
    + destruct (Z.eqb_spec (st_scenarioId scenario) id) as [-> | Hne]; simpl.
      * rewrite Hu. simpl. by rewrite lookup_insert_eq.
      * by rewrite lookup_insert_ne.
    + by rewrite andb_false_r.
Qed.

Lemma lastTimed_Some (id : Z) (history : list ScenarioTracking) (scenario : ScenarioTracking) :
  lastTimed id history = Some scenario ->
  scenario ∈ history /\ st_scenarioId scenario = id
  /\ is_Some (usableTiming scenario).
Proof.
  induction history as [| r rest IH]; simpl; [done |].
  destruct (lastTimed id rest) as [later |].
  - intros [= <-]. destruct (IH eq_refl) as (? & ? & ?).
    split; [by apply list_elem_of_further | done].
  - unfold isTimed. destruct (Z.eqb_spec (st_scenarioId r) id); simpl; [| done].
    case_bool_decide; [| done]. intros [= <-].
    split; [apply list_elem_of_here | done].
Qed.

Lemma lastTimed_None (id : Z) (history : list ScenarioTracking) :
  lastTimed id history = None <->
  forall scenario, scenario ∈ history -> st_scenarioId scenario = id ->
                   usableTiming scenario = None.
Proof.
  induction history as [| r rest IH]; simpl.
  - split; [intros _ ? H; by apply not_elem_of_nil in H | done].
  - destruct (lastTimed id rest) as [later |] eqn:Hl.
    + split; [done |]. intros H. apply lastTimed_Some in Hl as (Hin & Hid & [u Hu]).
      rewrite (H later) in Hu; [done | by apply list_elem_of_further | done].
    + unfold isTimed. destruct IH as [IH _]. specialize (IH eq_refl).
      destruct (Z.eqb_spec (st_scenarioId r) id) as [Hid | Hne]; simpl.
      * case_bool_decide as Hs.
        -- split; [done |]. intros H. destruct Hs as [u Hu].
           rewrite (H r) in Hu; [done | apply list_elem_of_here | done].
        -- split; [| done]. intros _ s Hin Hsid.
           apply elem_of_cons in Hin as [-> | Hin]; [| by apply IH].
           destruct (usableTiming r); [| done]. exfalso. apply Hs. eauto.
      * split; [| done]. intros _ s Hin Hsid.
        apply elem_of_cons in Hin as [-> | Hin]; [done | by apply IH].
Qed.

Lemma timedHistory_nil (history : list ScenarioTracking) :
  timedHistory history = [] <->
  forall scenario, scenario ∈ history -> usableTiming scenario = None.
Proof.
  unfold timedHistory. induction history as [| r rest IH]; simpl.
  - split; [intros _ ? H; by apply not_elem_of_nil in H | done].
  - unfold timedSeconds at 1.
    destruct (usableTiming r) as [[start finish] |] eqn:Hu; simpl.
    + split; [done |]. intros H. specialize (H r (list_elem_of_here _ _)). congruence.
    + rewrite IH. split.
      * intros H s Hin. apply elem_of_cons in Hin as [-> | Hin]; [done | by apply H].
      * intros H s Hin. apply H. by apply list_elem_of_further.
Qed.

Lemma timedHistory_cons (scenario : ScenarioTracking) (rest : list ScenarioTracking) :
  timedHistory (scenario :: rest)
  = match timedSeconds scenario with
    | Some t => t :: timedHistory rest
    | None => timedHistory rest
    end.
Proof. reflexivity. Qed.

Lemma timedSeconds_is_Some (scenario : ScenarioTracking) :
  is_Some (usableTiming scenario) <-> is_Some (timedSeconds scenario).
Proof.
  unfold timedSeconds.
  destruct (usableTiming scenario) as [[start finish] |]; split; intros [? ?]; by eauto.
Qed.

(** The fallback loop pushes one 75 per outcome. *)
Lemma push75 (outcomes : list ScenarioOutcome) (i : nat) (acc : list Q) :
  JS.forEachFrom (fun acc _ _ => acc ++ [75%Q]) outcomes i acc
  = acc ++ replicate (length outcomes) 75%Q.
Proof.
  revert i acc. induction outcomes as [| o rest IH]; intros i acc; simpl.
  - by rewrite app_nil_r.
  - rewrite IH. by rewrite <- app_assoc.
Qed.

Lemma fallbackTimes_spec (outcomes : list ScenarioOutcome) (times : list Q) :
  fallbackTimes outcomes times
  = match times with
    | [] => replicate (length outcomes) 75%Q
    | _ :: _ => times
    end.
Proof.
  unfold fallbackTimes, JS.forEach, JS.len. destruct times as [| t rest]; simpl.
  - apply push75.
  - done.
Qed.

Variable matchedStableValues moralValuesReorderList : list string.
Variable events : list TelemetryEvent.
Variable times : list Q.
Variable detailsMap : gmap Z TrackingData.

(** [simulationOutcomes.forEach]: one alignment and one detail record per
    outcome, pushed in outcome order. *)
Lemma recordOutcome_spec (outcomes : list ScenarioOutcome) (i : nat)
    (acc : list bool * list ScenarioDetail) :
  JS.forEachFrom
    (recordOutcome matchedStableValues moralValuesReorderList events times detailsMap)
    outcomes i acc
  = (acc.1 ++ map (alignedOf matchedStableValues moralValuesReorderList events) outcomes,
     acc.2 ++ imap (fun j o =>
                      detailOf matchedStableValues moralValuesReorderList events
                        times detailsMap o (i + j))
                outcomes).
Proof.
  revert i acc. induction outcomes as [| o rest IH]; intros i acc; simpl.
  - by rewrite !app_nil_r; destruct acc.
  - rewrite IH. unfold recordOutcome. simpl.
    rewrite <- !app_assoc. simpl. rewrite Nat.add_0_r.
    do 3 f_equal. apply imap_ext. intros j x _. simpl. f_equal. lia.
Qed.

(** [scenarioDetails.forEach]: each counter grows by the number of detail
    records that meet its test. *)
Lemma countScenario_spec (details : list ScenarioDetail) (i : nat) (acc : Z * Z) :
  JS.forEachFrom (countScenario events) details i acc
  = (acc.1 + countIf (fun d => negb (aligned d)) details,
     acc.2 + countIf (reorderedAtConfirmation events) details).
Proof.
  unfold countIf.
  revert i acc. induction details as [| d rest IH]; intros i acc; simpl.
  - destruct acc; simpl; f_equal; lia.
  - rewrite IH. unfold countScenario. simpl.
    destruct (aligned d), (reorderedAtConfirmation events d); simpl; f_equal; lia.
Qed.

End Loops.

(** ** The fields of the session record *)

Section Fields.

Variable env : Env.
Variable m : SimulationMetrics.

Lemma decisionTimes_spec :
  decisionTimes (sessionDVs env m)
  = match timedHistory (scenarioHistory env) with
    | [] => replicate (length (simulationOutcomes env)) 75%Q
    | t :: ts => t :: ts
    end.
Proof.
  unfold sessionDVs. simpl. unfold JS.forEach.
  rewrite trackScenario_times. simpl. rewrite fallbackTimes_spec.
  by destruct (timedHistory (scenarioHistory env)).
Qed.

Lemma finalAlignmentByScenario_spec :
  finalAlignmentByScenario (sessionDVs env m)
  = map (alignedOf (matchedStableValuesOf env) (moralValuesReorderListOf env)
           (allEvents env))
      (simulationOutcomes env).
Proof.
  unfold sessionDVs. simpl. unfold JS.forEach at 1.
  by rewrite recordOutcome_spec.
Qed.

Lemma scenarioDetails_spec :
  scenarioDetails (sessionDVs env m)
  = imap (fun j o =>
            detailOf (matchedStableValuesOf env) (moralValuesReorderListOf env)
              (allEvents env) (decisionTimes (sessionDVs env m))
              (scenarioDetailsMapOf env) o j)
      (simulationOutcomes env).
Proof.
  unfold sessionDVs. simpl. unfold JS.forEach at 1.
  by rewrite recordOutcome_spec.
Qed.

Lemma scenarioDetails_lookup (i : nat) (o : ScenarioOutcome) :
  simulationOutcomes env !! i = Some o ->
  scenarioDetails (sessionDVs env m) !! i
  = Some (detailOf (matchedStableValuesOf env) (moralValuesReorderListOf env)
            (allEvents env) (decisionTimes (sessionDVs env m))
            (scenarioDetailsMapOf env) o i).
Proof.
  intros Ho. rewrite scenarioDetails_spec, list_lookup_imap, Ho. done.
Qed.

Lemma scenarioDetailsMapOf_lookup (id : Z) :
  scenarioDetailsMapOf env !! id
  = match lastTimed id (scenarioHistory env) with
    | Some scenario => trackedData scenario <$> timedSeconds scenario
    | None => None
    end.
Proof.
  unfold scenarioDetailsMapOf, JS.forEach. rewrite trackScenario_lookup.
  destruct (lastTimed id (scenarioHistory env)); [done |]. apply lookup_empty.
Qed.

Lemma counts_spec :
  misalignAfterCvrApaCount (sessionDVs env m)
  = countIf (fun d => negb (aligned d)) (scenarioDetails (sessionDVs env m))
  /\ realignAfterCvrApaCount (sessionDVs env m)
  = countIf (reorderedAtConfirmation (allEvents env)) (scenarioDetails (sessionDVs env m)).
Proof.
  unfold sessionDVs. cbn [misalignAfterCvrApaCount realignAfterCvrApaCount scenarioDetails].
  match goal with
  | |- context [JS.forEach (countScenario _) ?details _] => generalize details
  end.
  intros details. unfold JS.forEach. rewrite countScenario_spec. simpl. split; lia.
Qed.

End Fields.

Lemma includes_elem_of (l : list string) (x : string) :
  JS.includes l x = true <-> x ∈ l.
Proof.
  unfold JS.includes. rewrite existsb_exists. split.
  - intros (y & Hin & Heq). apply String.eqb_eq in Heq. subst y.
    by apply list_elem_of_In.
  - intros Hin. exists x. split; [by apply list_elem_of_In | apply String.eqb_refl].
Qed.

Lemma valueExistsInList_referenceSet (env : Env) (id : Z) (x : string) :
  valueExistsInList (matchedStableValuesOf env) (moralValuesReorderListOf env) id x = true
  <-> x ∈ referenceSet env id.
Proof.
  unfold valueExistsInList, referenceSet.
  destruct (Z.eqb_spec id 1), (Z.eqb_spec id 2), (Z.eqb_spec id 3);
    cbn [orb]; repeat case_decide; try lia; try apply includes_elem_of.
  split; [done |]. by intros ?%not_elem_of_nil.
Qed.

Lemma len_filter_0 {A} (p : A -> bool) (l : list A) :
  (JS.len (List.filter p l) =? 0) = true <-> forall x, x ∈ l -> p x = false.
Proof.
  unfold JS.len. rewrite Z.eqb_eq. induction l as [| a l IH]; simpl.
  - split; [intros _ ? H; by apply not_elem_of_nil in H | done].
  - destruct (p a) eqn:Hp; simpl.
    + split; [lia |]. intros H. specialize (H a (list_elem_of_here _ _)). congruence.
    + rewrite IH. split.
      * intros H x Hin. apply elem_of_cons in Hin as [-> | Hin]; [done | by apply H].
      * intros H x Hin. apply H. by apply list_elem_of_further.
Qed.

Lemma no_cvr_yes (events : list TelemetryEvent) (o : ScenarioOutcome) :
  (JS.len (scenarioCvrYesAnswersOf events o) =? 0) = true
  <-> forall e, e ∈ events -> ~ cvrYesEvent (so_scenarioId o) e.
Proof.
  unfold scenarioCvrYesAnswersOf, cvrAnswerEventsOf. rewrite len_filter_0. split.
  - intros H e Hin (Hk & Hid & Ha).
    assert (Hf : e ∈ List.filter (isEvent "cvr_answered") events).
    { apply list_elem_of_In, filter_In. split; [by apply list_elem_of_In |].
      unfold isEvent. rewrite Hk. apply String.eqb_refl. }
    specialize (H e Hf). unfold inScenario, answered in H.
    rewrite Hid, Ha, Z.eqb_refl in H. done.
  - intros H e Hin. apply list_elem_of_In, filter_In in Hin as [Hin Hk].
    apply list_elem_of_In in Hin. specialize (H e Hin).
    destruct (inScenario (so_scenarioId o) e && answered true e) eqn:Hb; [| done].
    exfalso. apply H. apply andb_true_iff in Hb as [Hs Ha].
    unfold cvrYesEvent, isEvent, inScenario, answered in *.
    apply String.eqb_eq in Hk.
    destruct (ev_scenarioId e) as [j |]; [| done]. apply Z.eqb_eq in Hs. subst j.
    destruct (cvrAnswer e) as [[|] |]; done.
Qed.

(** ** Alignment *)

(** C2.  For the outcome at each index, the alignment pushed on
    [finalAlignmentByScenario] (and stored in the detail record) is true
    exactly when the lower-cased label is in the reference set of the
    scenario id and the log has no answered-yes event of that scenario. *)
Theorem alignment_iff (env : Env) (m : SimulationMetrics) (i : nat) (o : ScenarioOutcome) :
  simulationOutcomes env !! i = Some o ->
  exists (b : bool) (d : ScenarioDetail),
    finalAlignmentByScenario (sessionDVs env m) !! i = Some b
    /\ scenarioDetails (sessionDVs env m) !! i = Some d
    /\ aligned d = b
    /\ (b = true <->
        JS.toLowerCase (JS.orStr (label (decision o)) EmptyString)
          ∈ referenceSet env (so_scenarioId o)
        /\ forall e, e ∈ allEvents env -> ~ cvrYesEvent (so_scenarioId o) e).
Proof.
  intros Ho. eexists _, _. split; [| split; [| split]].
  - rewrite finalAlignmentByScenario_spec.
    change (map ?f ?l) with (f <$> l). rewrite list_lookup_fmap, Ho. done.
  - by apply scenarioDetails_lookup.
  - done.
  - unfold alignedOf. rewrite andb_true_iff.
    by rewrite valueExistsInList_referenceSet, no_cvr_yes.
Qed.

Lemma alignment_iff_witness :
  simulationOutcomes Sample.session !! 2%nat = Some (Sample.outcome 3 "Autonomy")
  /\ exists (b : bool) (d : ScenarioDetail),
      finalAlignmentByScenario (sessionDVs Sample.session Sample.midway) !! 2%nat = Some b
      /\ scenarioDetails (sessionDVs Sample.session Sample.midway) !! 2%nat = Some d
      /\ aligned d = b
      /\ (b = true <->
          "autonomy" ∈ referenceSet Sample.session 3
          /\ forall e, e ∈ allEvents Sample.session -> ~ cvrYesEvent 3 e).
Proof.
  split; [reflexivity |].
  exact (alignment_iff Sample.session Sample.midway 2 (Sample.outcome 3 "Autonomy") eq_refl).
Defined.

(** ** Shape of the record *)

Lemma calculateMetrics_guard (env : Env) (page : Page) :
  simulationOutcomes env = [] \/ finalMetrics env = None ->
  calculateMetrics env page = page.
Proof.
  unfold calculateMetrics. intros [-> | ->]; simpl.
  - done.
  - by destruct (JS.len (simulationOutcomes env) =? 0).
Qed.

Lemma calculateMetrics_produced (env : Env) (flag : bool) (dv : SessionDVs) :
  metrics (calculateMetrics env (freshPage flag)) = Some dv ->
  simulationOutcomes env <> []
  /\ exists m, finalMetrics env = Some m /\ dv = sessionDVs env m.
Proof.
  unfold calculateMetrics, JS.len.
  destruct (simulationOutcomes env) as [| o rest] eqn:Ho; simpl; [done |].
  destruct (finalMetrics env) as [m |]; simpl; [| done].
  intros [= <-]. split; [done |]. exists m. split; [done |].
  unfold sessionDVs. by rewrite Ho.
Qed.

(** The flag is set on the two paths that get past the guard, whether or
    not the sink accepts the write. *)
Lemma calculateMetrics_sets_flag (env : Env) (page : Page) (m : SimulationMetrics) :
  simulationOutcomes env <> [] -> finalMetrics env = Some m ->
  metricsCalculated (calculateMetrics env page) = true.
Proof.
  unfold calculateMetrics, JS.len. intros Ho ->.
  destruct (simulationOutcomes env); [done | done].
Qed.

Lemma count_one (ids : list Z) (id : Z) :
  NoDup ids -> id ∈ ids -> length (List.filter (fun j => j =? id) ids) = 1%nat.
Proof.
  induction 1 as [| j l Hnin Hnd IH]; simpl.
  - by intros ?%not_elem_of_nil.
  - intros Hin. destruct (Z.eqb_spec j id) as [-> | Hne]; simpl.
    + f_equal. clear -Hnin. induction l as [| k l IHl]; simpl; [done |].
      apply not_elem_of_cons in Hnin as [Hk Hl].
      destruct (Z.eqb_spec k id); [congruence | by apply IHl].
    + apply elem_of_cons in Hin as [-> | Hin]; [done | by apply IH].
Qed.

(** C8.  In a produced record, [scenarioDetails] and
    [finalAlignmentByScenario] are as long as the outcome list, the detail
    records carry the outcomes' scenario ids in outcome order, and a
    scenario listed once in the outcomes has exactly one detail record. *)
Theorem details_follow_outcomes (env : Env) (flag : bool) (dv : SessionDVs) :
  metrics (calculateMetrics env (freshPage flag)) = Some dv ->
  length (scenarioDetails dv) = length (simulationOutcomes env)
  /\ length (finalAlignmentByScenario dv) = length (simulationOutcomes env)
  /\ map scenarioId (scenarioDetails dv) = map so_scenarioId (simulationOutcomes env)
  /\ (NoDup (map so_scenarioId (simulationOutcomes env)) ->
      forall o, o ∈ simulationOutcomes env ->
        length (List.filter (fun d => scenarioId d =? so_scenarioId o) (scenarioDetails dv))
        = 1%nat).
Proof.
  intros (_ & m & _ & ->)%calculateMetrics_produced.
  assert (Hids : map scenarioId (scenarioDetails (sessionDVs env m))
                 = map so_scenarioId (simulationOutcomes env)).
  { rewrite scenarioDetails_spec. change (map ?f ?l) with (f <$> l).
    rewrite fmap_imap. apply list_eq. intros i.
    rewrite list_lookup_imap, list_lookup_fmap. by destruct (_ !! i). }
  split; [| split; [| split]].
  - by rewrite scenarioDetails_spec, length_imap.
  - by rewrite finalAlignmentByScenario_spec, length_map.
  - exact Hids.
  - intros Hnd o Ho.
    assert (Hf : forall (l : list ScenarioDetail) (id : Z),
               length (List.filter (fun d => scenarioId d =? id) l)
               = length (List.filter (fun j => j =? id) (map scenarioId l))).
    { intros l id. induction l as [| d l IHl]; simpl; [done |].
      destruct (scenarioId d =? id); simpl; by rewrite IHl. }
    rewrite Hf, Hids. apply count_one; [done |].
    change (map ?f ?l) with (f <$> l). apply list_elem_of_fmap. eauto.
Qed.

Lemma details_follow_outcomes_witness :
  metrics (calculateMetrics Sample.session (freshPage false))
    = Some (sessionDVs Sample.session Sample.midway)
  /\ length (scenarioDetails (sessionDVs Sample.session Sample.midway)) = 3%nat
  /\ length (finalAlignmentByScenario (sessionDVs Sample.session Sample.midway)) = 3%nat
  /\ map scenarioId (scenarioDetails (sessionDVs Sample.session Sample.midway)) = [1; 2; 3].
Proof.
  split; [reflexivity |].
  destruct (details_follow_outcomes Sample.session false _ eq_refl) as (Hd & Ha & Hids & _).
  split; [exact Hd |]. split; [exact Ha | exact Hids].
Defined.

(** ** Decision times *)

Lemma usableTiming_both (r : ScenarioTracking) (start finish : Z) :
  usableTiming r = Some (start, finish) <-> bothTimestamps r start finish.
Proof.
  unfold usableTiming, bothTimestamps, JS.truthyNum.
  destruct (endTime r) as [e |], (startTime r) as [s |]; try (split; [done | by intros (? & ? & _)]).
  - destruct (Z.eqb_spec e 0) as [-> | He], (Z.eqb_spec s 0) as [-> | Hs].
    + split; [done |]. intros ([= <-] & [= <-] & H & _). done.
    + split; [done |]. intros ([= <-] & [= <-] & _ & H). done.
    + split; [done |]. intros ([= <-] & [= <-] & H & _). done.
    + split.
      * intros [= <- <-]. done.
      * intros ([= <-] & [= <-] & _). done.
  - destruct (e =? 0); split; try done; by intros (? & ? & _).
Qed.

Lemma timedSeconds_formula (r : ScenarioTracking) :
  timedSeconds r
  = match endTime r, startTime r with
    | Some finish, Some start =>
        if (finish =? 0) || (start =? 0) then None
        else Some (inject_Z (finish - start) / 1000)%Q
    | _, _ => None
    end.
Proof.
  unfold timedSeconds, usableTiming, JS.truthyNum, elapsedSeconds.
  destruct (endTime r) as [e |], (startTime r) as [s |]; try done.
  - by destruct (e =? 0), (s =? 0).
  - by destruct (e =? 0).
Qed.

(** C4.  When no tracking record has both timestamps (present and non-zero,
    as the code tests them) every outcome contributes one 75; when some
    record has, [decisionTimes] holds, for the timed records only and in
    their order, the elapsed seconds (endTime - startTime) / 1000; a
    session with outcomes never has an empty sequence, and
    [avgDecisionTime] is the sum of the sequence over its length. *)
Theorem decision_time_fallback_session_wide (env : Env) (m : SimulationMetrics) :
  ((forall r start finish, r ∈ scenarioHistory env -> ~ bothTimestamps r start finish) ->
   decisionTimes (sessionDVs env m)
   = replicate (length (simulationOutcomes env)) 75%Q)
  /\ ((exists r start finish, r ∈ scenarioHistory env /\ bothTimestamps r start finish) ->
      decisionTimes (sessionDVs env m)
      = omap (fun r => match endTime r, startTime r with
                       | Some finish, Some start =>
                           if (finish =? 0) || (start =? 0) then None
                           else Some (inject_Z (finish - start) / 1000)%Q
                       | _, _ => None
                       end)
          (scenarioHistory env))
  /\ (simulationOutcomes env <> [] ->
      decisionTimes (sessionDVs env m) <> []
      /\ avgDecisionTime (sessionDVs env m)
         = (JS.sumQ (decisionTimes (sessionDVs env m))
            / inject_Z (JS.len (decisionTimes (sessionDVs env m))))%Q).
Proof.
  assert (Hformula : timedHistory (scenarioHistory env)
                     = omap (fun r => match endTime r, startTime r with
                       | Some finish, Some start =>
                           if (finish =? 0) || (start =? 0) then None
                           else Some (inject_Z (finish - start) / 1000)%Q
                       | _, _ => None
                       end) (scenarioHistory env)).
  { unfold timedHistory. induction (scenarioHistory env) as [| r rest IH]; [done |].
    cbn [omap list_omap]. rewrite <- timedSeconds_formula.
    destruct (timedSeconds r); simpl; by rewrite <- IH. }
  split; [| split].
  - intros Hnone. rewrite decisionTimes_spec.
    assert (Ht : timedHistory (scenarioHistory env) = []).
    { apply timedHistory_nil. intros r Hin.
      destruct (usableTiming r) as [[start finish] |] eqn:Hu; [| done].
      apply usableTiming_both in Hu. by destruct (Hnone r start finish Hin). }
    by rewrite Ht.
  - intros (r & start & finish & Hin & Hboth). rewrite decisionTimes_spec, <- Hformula.
    destruct (timedHistory (scenarioHistory env)) eqn:Ht; [| done].
    rewrite timedHistory_nil in Ht. apply usableTiming_both in Hboth.
    rewrite (Ht r Hin) in Hboth. done.
  - intros Ho.
    assert (Hne : decisionTimes (sessionDVs env m) <> []).
    { rewrite decisionTimes_spec.
      destruct (timedHistory (scenarioHistory env)); [| done].
      destruct (simulationOutcomes env); done. }
    split; [exact Hne |].
    change (avgDecisionTime (sessionDVs env m))
      with (average (decisionTimes (sessionDVs env m))).
    unfold average, JS.len. destruct (decisionTimes (sessionDVs env m)); done.
Qed.

Lemma decision_time_fallback_session_wide_witness :
  (exists r start finish, r ∈ scenarioHistory Sample.inOrder /\ bothTimestamps r start finish)
  /\ decisionTimes (sessionDVs Sample.inOrder Sample.midway) = [30000 # 1000; 12500 # 1000]%Q
  /\ (avgDecisionTime (sessionDVs Sample.inOrder Sample.midway) == 85 # 4)%Q
  /\ decisionTimes (sessionDVs Sample.session Sample.midway) = [60500 # 1000]%Q
  /\ (forall r start finish, r ∈ scenarioHistory Sample.untimed ->
                             ~ bothTimestamps r start finish)
  /\ decisionTimes (sessionDVs Sample.untimed Sample.midway) = [75; 75; 75]%Q.
Proof.
  assert (Hin : exists r start finish,
             r ∈ scenarioHistory Sample.inOrder /\ bothTimestamps r start finish).
  { exists (Sample.tracked 1 (Some 1000) (Some 31000) None), 1000, 31000.
    split; [apply list_elem_of_here | by repeat split]. }
  assert (Hmixed : exists r start finish,
             r ∈ scenarioHistory Sample.session /\ bothTimestamps r start finish).
  { exists (Sample.tracked 1 (Some 1000) (Some 61500) (Some 4)), 1000, 61500.
    split; [apply list_elem_of_here | by repeat split]. }
  assert (Hnone : forall r start finish, r ∈ scenarioHistory Sample.untimed ->
                                         ~ bothTimestamps r start finish).
  { intros r start finish Hr (Hs & He & Hs0 & He0). cbn in Hr.
    apply elem_of_cons in Hr as [-> | Hr]; [discriminate Hs |].
    apply elem_of_cons in Hr as [-> | Hr]; [injection Hs as <-; by apply Hs0 |].
    by apply not_elem_of_nil in Hr. }
  assert (Hout : simulationOutcomes Sample.inOrder <> []) by discriminate.
  destruct (decision_time_fallback_session_wide Sample.inOrder Sample.midway)
    as (_ & Htimed & Havg).
  destruct (Havg Hout) as [_ Hmean].
  split; [exact Hin |].
  split; [exact (Htimed Hin) |].
  split; [rewrite Hmean; reflexivity |].
  split; [exact (proj1 (proj2 (decision_time_fallback_session_wide
                                 Sample.session Sample.midway)) Hmixed) |].
  split; [exact Hnone |].
  exact (proj1 (decision_time_fallback_session_wide Sample.untimed Sample.midway) Hnone).
Defined.

(** C5, as stated, fails: a session of three outcomes where one tracking
    record has both timestamps has a single decision time. *)
Lemma decision_times_shorter_than_outcomes :
  length (simulationOutcomes Sample.session) = 3%nat
  /\ decisionTimes (sessionDVs Sample.session Sample.midway) = [elapsedSeconds 1000 61500]
  /\ length (decisionTimes (sessionDVs Sample.session Sample.midway)) = 1%nat.
Proof. repeat split. Qed.

(** C5 (amended).  [decisionTimes] holds one entry per tracking record with
    usable timing, in the order of the tracking history; only when there is
    no such record does it hold one entry (75) per outcome.  When the
    history lists the outcomes' scenarios in outcome order, each with
    usable timing, the entries are the outcomes' elapsed seconds in outcome
    order. *)
Theorem decision_times_follow_history (env : Env) (m : SimulationMetrics) :
  (timedHistory (scenarioHistory env) = [] ->
   decisionTimes (sessionDVs env m) = replicate (length (simulationOutcomes env)) 75%Q)
  /\ (timedHistory (scenarioHistory env) <> [] ->
      Forall2 (fun r t => timedSeconds r = Some t)
        (List.filter (fun r => bool_decide (is_Some (usableTiming r))) (scenarioHistory env))
        (decisionTimes (sessionDVs env m)))
  /\ (Forall2 (fun o r => st_scenarioId r = so_scenarioId o /\ is_Some (usableTiming r))
        (simulationOutcomes env) (scenarioHistory env) ->
      Forall2 (fun o t => exists r, r ∈ scenarioHistory env
                                    /\ st_scenarioId r = so_scenarioId o
                                    /\ timedSeconds r = Some t)
        (simulationOutcomes env) (decisionTimes (sessionDVs env m))).
Proof.
  assert (Hfilter : forall history,
             Forall2 (fun r t => timedSeconds r = Some t)
               (List.filter (fun r => bool_decide (is_Some (usableTiming r))) history)
               (timedHistory history)).
  { induction history as [| r rest IH]; [constructor |].
    rewrite timedHistory_cons. cbn [List.filter].
    destruct (timedSeconds r) as [t |] eqn:Hr.
    - rewrite bool_decide_eq_true_2 by (apply timedSeconds_is_Some; eauto).
      by constructor.
    - rewrite bool_decide_eq_false_2; [exact IH |].
      intros [t Ht]%timedSeconds_is_Some. congruence. }
  split; [| split].
  - intros Ht. by rewrite decisionTimes_spec, Ht.
  - intros Ht. rewrite decisionTimes_spec.
    pose proof (Hfilter (scenarioHistory env)) as Hf.
    by destruct (timedHistory (scenarioHistory env)).
  - intros Hall. rewrite decisionTimes_spec.
    assert (Hgen : forall history outcomes (seen : list ScenarioTracking),
               Forall2 (fun o r => st_scenarioId r = so_scenarioId o
                                   /\ is_Some (usableTiming r)) outcomes history ->
               Forall2 (fun o t => exists r, r ∈ seen ++ history
                                  /\ st_scenarioId r = so_scenarioId o
                                  /\ timedSeconds r = Some t)
                 outcomes (timedHistory history)).
    { intros history outcomes seen H. revert seen.
      induction H as [| o r outcomes history [Hid Hu] _ IH]; intros seen; [constructor |].
      rewrite timedHistory_cons.
      apply timedSeconds_is_Some in Hu as [t Ht]. rewrite Ht.
      constructor.
      - exists r. split; [| done]. apply elem_of_app. right. apply list_elem_of_here.
      - specialize (IH (seen ++ [r])). rewrite <- app_assoc in IH. exact IH. }
    pose proof (Hgen _ _ [] Hall) as Hpair. simpl in Hpair.
    destruct (timedHistory (scenarioHistory env)) eqn:Ht; [| exact Hpair].
    apply Forall2_nil_inv_r in Hpair. rewrite Hpair. constructor.
Qed.

Lemma decision_times_follow_history_witness :
  timedHistory (scenarioHistory Sample.session) <> []
  /\ Forall2 (fun r t => timedSeconds r = Some t)
       (List.filter (fun r => bool_decide (is_Some (usableTiming r)))
          (scenarioHistory Sample.session))
       (decisionTimes (sessionDVs Sample.session Sample.midway))
  /\ timedHistory (scenarioHistory Sample.both) = []
  /\ decisionTimes (sessionDVs Sample.both Sample.midway) = [75%Q]
  /\ Forall2 (fun o r => st_scenarioId r = so_scenarioId o /\ is_Some (usableTiming r))
       (simulationOutcomes Sample.inOrder) (scenarioHistory Sample.inOrder)
  /\ Forall2 (fun o t => exists r, r ∈ scenarioHistory Sample.inOrder
                                   /\ st_scenarioId r = so_scenarioId o
                                   /\ timedSeconds r = Some t)
       (simulationOutcomes Sample.inOrder)
       (decisionTimes (sessionDVs Sample.inOrder Sample.midway)).
Proof.
  assert (Hne : timedHistory (scenarioHistory Sample.session) <> []) by discriminate.
  assert (Hord : Forall2 (fun o r => st_scenarioId r = so_scenarioId o
                                     /\ is_Some (usableTiming r))
                   (simulationOutcomes Sample.inOrder) (scenarioHistory Sample.inOrder)).
  { repeat constructor; by eexists. }
  split; [exact Hne |].
  split; [exact (proj1 (proj2 (decision_times_follow_history
                                 Sample.session Sample.midway)) Hne) |].
  split; [reflexivity |].
  split; [exact (proj1 (decision_times_follow_history Sample.both Sample.midway) eq_refl) |].
  split; [exact Hord |].
  exact (proj2 (proj2 (decision_times_follow_history Sample.inOrder Sample.midway)) Hord).
Defined.

(** ** Tracked and recomputed values *)

Lemma trackingDataOf_spec (env : Env) (m : SimulationMetrics) (o : ScenarioOutcome) (i : nat) :
  trackingDataOf (decisionTimes (sessionDVs env m)) (scenarioDetailsMapOf env) o i
  = match lastTimed (so_scenarioId o) (scenarioHistory env) with
    | Some r =>
        match timedSeconds r with
        | Some t => trackedData r t
        | None => untrackedData (decisionTimes (sessionDVs env m)) i
        end
    | None => untrackedData (decisionTimes (sessionDVs env m)) i
    end.
Proof.
  unfold trackingDataOf. rewrite scenarioDetailsMapOf_lookup.
  destruct (lastTimed (so_scenarioId o) (scenarioHistory env)) as [r |]; [| done].
  by destruct (timedSeconds r).
Qed.

Lemma orElse_orNum (x : option Z) (d : Z) : orElse (JS.orNum x 0) d = JS.orNum x d.
Proof.
  unfold orElse, JS.orNum, JS.truthyNum.
  destruct x as [v |]; [| done]. destruct (Z.eqb_spec v 0) as [-> | Hv]; [done |].
  by rewrite (proj2 (Z.eqb_neq v 0) Hv).
Qed.

Lemma orBool_false (x : option bool) (d : bool) : JS.orBool x false || d = JS.orBool x d.
Proof. unfold JS.orBool. by destruct (JS.truthyBool x). Qed.

(** C3, as stated, fails: scenario 2 has a tracking record whose switch
    count is 5 and no timestamps; its detail record shows the 2 switches
    recomputed from its three selections. *)
Lemma tracked_without_timing_ignored :
  exists (r : ScenarioTracking) (d : ScenarioDetail),
    r ∈ scenarioHistory Sample.session
    /\ st_scenarioId r = 2
    /\ switchCount r = Some 5
    /\ scenarioDetails (sessionDVs Sample.session Sample.midway) !! 1%nat = Some d
    /\ scenarioId d = 2
    /\ switches d = 2.
Proof.
  exists (Sample.tracked 2 None None (Some 5)). eexists.
  split; [apply list_elem_of_further, list_elem_of_here |].
  repeat split.
Qed.

(** C3 (amended).  For the outcome at each index: when the scenario has a
    tracking record with usable timing (the last such record of the
    history), each of the six fields of its detail record is the tracked
    value when that value is truthy, and otherwise the value recomputed
    from the scenario's events; when it has none, tracked or not, each
    field is the recomputed value. *)
Theorem tracked_values_preferred
    (env : Env) (m : SimulationMetrics) (i : nat) (o : ScenarioOutcome) :
  simulationOutcomes env !! i = Some o ->
  exists d : ScenarioDetail,
    scenarioDetails (sessionDVs env m) !! i = Some d
    /\ match lastTimed (so_scenarioId o) (scenarioHistory env) with
       | Some r =>
           switches d
           = JS.orNum (switchCount r)
               (Z.max 0 (JS.len (scenarioOptionSelectionsOf (allEvents env) o) - 1))
           /\ cvrVisited d
              = JS.orBool (st_cvrVisited r)
                  (0 <? JS.len (scenarioCvrVisitsOf (allEvents env) o))
           /\ cvrVisitCount d
              = JS.orNum (st_cvrVisitCount r)
                  (JS.len (scenarioCvrVisitsOf (allEvents env) o))
           /\ cvrYesAnswers d
              = JS.orNum (st_cvrYesAnswers r)
                  (JS.len (scenarioCvrYesAnswersOf (allEvents env) o))
           /\ apaReordered d
              = JS.orBool (st_apaReordered r)
                  (0 <? JS.len (scenarioApaEventsOf (allEvents env) o))
           /\ apaReorderCount d
              = JS.orNum (st_apaReorderCount r)
                  (JS.len (scenarioApaEventsOf (allEvents env) o))
       | None =>
           switches d
           = Z.max 0 (JS.len (scenarioOptionSelectionsOf (allEvents env) o) - 1)
           /\ cvrVisited d = (0 <? JS.len (scenarioCvrVisitsOf (allEvents env) o))
           /\ cvrVisitCount d = JS.len (scenarioCvrVisitsOf (allEvents env) o)
           /\ cvrYesAnswers d = JS.len (scenarioCvrYesAnswersOf (allEvents env) o)
           /\ apaReordered d = (0 <? JS.len (scenarioApaEventsOf (allEvents env) o))
           /\ apaReorderCount d = JS.len (scenarioApaEventsOf (allEvents env) o)
       end.
Proof.
  intros Ho. eexists. split; [by apply scenarioDetails_lookup |].
  unfold detailOf. cbn [switches cvrVisited cvrVisitCount cvrYesAnswers
                          apaReordered apaReorderCount].
  rewrite trackingDataOf_spec.
  destruct (lastTimed (so_scenarioId o) (scenarioHistory env)) as [r |] eqn:Hl.
  - apply lastTimed_Some in Hl as (_ & _ & Hu).
    apply timedSeconds_is_Some in Hu as [t Ht]. rewrite Ht.
    unfold trackedData. cbn [td_switches td_cvrVisited td_cvrVisitCount
                               td_cvrYesAnswers td_apaReordered td_apaReorderCount].
    by rewrite !orElse_orNum, !orBool_false.
  - unfold untrackedData, orElse. by simpl.
Qed.

Lemma tracked_values_preferred_witness :
  simulationOutcomes Sample.session !! 0%nat = Some (Sample.outcome 1 "Safety")
  /\ exists d : ScenarioDetail,
      scenarioDetails (sessionDVs Sample.session Sample.midway) !! 0%nat = Some d
      /\ switches d = 4
      /\ cvrVisitCount d = 1.
Proof.
  split; [reflexivity |].
  destruct (tracked_values_preferred Sample.session Sample.midway 0
              (Sample.outcome 1 "Safety") eq_refl) as (d & Hd & Hfields).
  exists d. split; [exact Hd |].
  cbv beta iota in Hfields. destruct Hfields as (Hs & _ & Hc & _).
  split; [exact Hs | exact Hc].
Defined.

(** ** Whole seconds *)

(** C10.  For the outcome at each index, [timeSeconds] of the detail record
    is a whole number.  When the scenario has a tracking record with both
    timestamps (the last such record of the history) it is
    (endTime - startTime) / 1000 rounded, within half a second of that
    unrounded value, which is the one kept in [decisionTimes]; otherwise it
    is the rounded entry of [decisionTimes] at that index, or 0 when there
    is none. *)
Theorem timeSeconds_whole
    (env : Env) (m : SimulationMetrics) (i : nat) (o : ScenarioOutcome) :
  simulationOutcomes env !! i = Some o ->
  exists d : ScenarioDetail,
    scenarioDetails (sessionDVs env m) !! i = Some d
    /\ (exists z : Z, timeSeconds d = inject_Z z)
    /\ match lastTimed (so_scenarioId o) (scenarioHistory env) with
       | Some r =>
           exists start finish : Z,
             r ∈ scenarioHistory env
             /\ st_scenarioId r = so_scenarioId o
             /\ startTime r = Some start /\ endTime r = Some finish
             /\ start <> 0 /\ finish <> 0
             /\ timeSeconds d = JS.Math_round (inject_Z (finish - start) / 1000)
             /\ (inject_Z (finish - start) / 1000 - (1 # 2) < timeSeconds d
                 /\ timeSeconds d <= inject_Z (finish - start) / 1000 + (1 # 2))%Q
             /\ (inject_Z (finish - start) / 1000)%Q ∈ decisionTimes (sessionDVs env m)
       | None =>
           (forall r start finish, r ∈ scenarioHistory env ->
              st_scenarioId r = so_scenarioId o -> ~ bothTimestamps r start finish)
           /\ timeSeconds d
              = match decisionTimes (sessionDVs env m) !! i with
                | Some t => JS.Math_round t
                | None => 0%Q
                end
       end.
Proof.
  intros Ho. eexists. split; [by apply scenarioDetails_lookup |].
  unfold detailOf. cbn [timeSeconds]. rewrite trackingDataOf_spec.
  destruct (lastTimed (so_scenarioId o) (scenarioHistory env)) as [r |] eqn:Hl.
  - apply lastTimed_Some in Hl as (Hin & Hid & [[start finish] Hu]).
    assert (Ht : timedSeconds r = Some (elapsedSeconds start finish)).
    { unfold timedSeconds. by rewrite Hu. }
    rewrite Ht. cbn [trackedData td_timeSeconds].
    split; [unfold JS.Math_round; eauto |].
    apply usableTiming_both in Hu as Hboth. destruct Hboth as (Hs & He & Hs0 & He0).
    exists start, finish. unfold elapsedSeconds in *.
    do 6 (split; [done |]). split; [done |].
    split; [apply Math_round_nearest |].
    rewrite decisionTimes_spec. fold (timedHistory (scenarioHistory env)).
    assert (Hmem : (inject_Z (finish - start) / 1000)%Q ∈ timedHistory (scenarioHistory env)).
    { apply list_elem_of_omap. eauto. }
    destruct (timedHistory (scenarioHistory env)); [| done].
    by apply not_elem_of_nil in Hmem.
  - cbn [untrackedData td_timeSeconds].
    split; [unfold JS.Math_round; eauto |].
    split.
    { intros r start finish Hin Hid Hboth. apply usableTiming_both in Hboth.
      rewrite (proj1 (lastTimed_None _ _) Hl r Hin Hid) in Hboth. done. }
    unfold JS.orQ.
    destruct (decisionTimes (sessionDVs env m) !! i) as [t |]; [| done].
    destruct (Qeq_bool t 0) eqn:Hz; [| done].
    apply Qeq_bool_eq in Hz. symmetry. by apply Math_round_comp.
Qed.

Lemma timeSeconds_whole_witness :
  simulationOutcomes Sample.session !! 0%nat = Some (Sample.outcome 1 "Safety")
  /\ simulationOutcomes Sample.untimed !! 1%nat = Some (Sample.outcome 2 "Fairness")
  /\ (exists d : ScenarioDetail,
        scenarioDetails (sessionDVs Sample.session Sample.midway) !! 0%nat = Some d
        /\ timeSeconds d = inject_Z 61
        /\ (60500 # 1000)%Q ∈ decisionTimes (sessionDVs Sample.session Sample.midway))
  /\ (exists d : ScenarioDetail,
        scenarioDetails (sessionDVs Sample.untimed Sample.midway) !! 1%nat = Some d
        /\ timeSeconds d = inject_Z 75).
Proof.
  split; [reflexivity |]. split; [reflexivity |]. split.
  - destruct (timeSeconds_whole Sample.session Sample.midway 0
                (Sample.outcome 1 "Safety") eq_refl) as (d & Hd & _ & Hr).
    exists d. split; [exact Hd |].
    cbv beta iota in Hr.
    change (lastTimed (so_scenarioId (Sample.outcome 1 "Safety"))
              (scenarioHistory Sample.session))
      with (Some (Sample.tracked 1 (Some 1000) (Some 61500) (Some 4))) in Hr.
    destruct Hr as (start & finish & _ & _ & Hs & He & _ & _ & Ht & _ & Hmem).
    injection Hs as <-. injection He as <-.
    split; [exact Ht | exact Hmem].
  - destruct (timeSeconds_whole Sample.untimed Sample.midway 1
                (Sample.outcome 2 "Fairness") eq_refl) as (d & Hd & _ & Hr).
    exists d. split; [exact Hd |].
    change (lastTimed (so_scenarioId (Sample.outcome 2 "Fairness"))
              (scenarioHistory Sample.untimed))
      with (@None ScenarioTracking) in Hr.
    exact (proj2 Hr).
Defined.

(** ** Realignment and misalignment counters *)

Lemma find_filter {A} (p q : A -> bool) (l : list A) :
  JS.find p (List.filter q l) = List.find (fun x => q x && p x) l.
Proof.
  unfold JS.find. induction l as [| x l IH]; simpl; [done |].
  destruct (q x); simpl; [| exact IH]. by destruct (p x).
Qed.

Lemma reorderedAtConfirmation_iff (events : list TelemetryEvent) (d : ScenarioDetail) :
  reorderedAtConfirmation events d = true
  <-> reorderedWhenConfirmed events (scenarioId d).
Proof.
  unfold reorderedAtConfirmation, confirmationEventOf, reorderedWhenConfirmed.
  rewrite find_filter. fold (firstConfirmed events (scenarioId d)).
  destruct (firstConfirmed events (scenarioId d)) as [e |].
  - destruct (flagsAtConfirmation e) as [flags |] eqn:Hflags.
    + unfold JS.nullish. rewrite orb_true_iff. split.
      * intros H. exists e, flags. split; [done |]. split; [done |].
        destruct H as [H | H]; [left | right].
        -- by destruct (simulationMetricsReorderingFlag flags) as [[|] |].
        -- by destruct (moralValuesReorderingFlag flags) as [[|] |].
      * intros (e' & flags' & [= <-] & Hf & Hor).
        rewrite Hflags in Hf. injection Hf as <-.
        destruct Hor as [-> | ->]; auto.
    + split; [done |]. intros (e' & flags' & [= <-] & Hf & _). congruence.
  - split; [done |]. by intros (e' & flags' & ? & _).
Qed.

(** C7.  Each step of the loop over the detail records adds one to
    [realignAfterCvrApaCount] exactly when the scenario's first
    [option_confirmed] event carries flags of which one is true, and one to
    [misalignAfterCvrApaCount] exactly when the scenario's alignment is
    false; the totals count the detail records, which carry the computed
    alignments in outcome order.  One scenario can add to both counters,
    or to neither. *)
Theorem realign_and_misalign_counted (env : Env) (m : SimulationMetrics) :
  (forall (acc : Z * Z) (d : ScenarioDetail) (i : nat),
      countScenario (allEvents env) acc d i
      = (acc.1 + (if aligned d then 0 else 1),
         acc.2 + (if reorderedAtConfirmation (allEvents env) d then 1 else 0)))
  /\ (forall d : ScenarioDetail,
        reorderedAtConfirmation (allEvents env) d = true
        <-> reorderedWhenConfirmed (allEvents env) (scenarioId d))
  /\ realignAfterCvrApaCount (sessionDVs env m)
     = countIf (reorderedAtConfirmation (allEvents env)) (scenarioDetails (sessionDVs env m))
  /\ misalignAfterCvrApaCount (sessionDVs env m)
     = countIf (fun d => negb (aligned d)) (scenarioDetails (sessionDVs env m))
  /\ map aligned (scenarioDetails (sessionDVs env m))
     = finalAlignmentByScenario (sessionDVs env m)
  /\ (exists env1 m1,
         length (simulationOutcomes env1) = 1%nat
         /\ realignAfterCvrApaCount (sessionDVs env1 m1) = 1
         /\ misalignAfterCvrApaCount (sessionDVs env1 m1) = 1)
  /\ (exists env0 m0,
         length (simulationOutcomes env0) = 1%nat
         /\ realignAfterCvrApaCount (sessionDVs env0 m0) = 0
         /\ misalignAfterCvrApaCount (sessionDVs env0 m0) = 0).
Proof.
  split; [| split; [| split; [| split; [| split; [| split]]]]].
  - intros acc d i. unfold countScenario.
    destruct (aligned d), (reorderedAtConfirmation (allEvents env) d);
      simpl; f_equal; lia.
  - apply reorderedAtConfirmation_iff.
  - apply counts_spec.
  - apply counts_spec.
  - rewrite scenarioDetails_spec, finalAlignmentByScenario_spec.
    change (map ?f ?l) with (f <$> l). rewrite fmap_imap. apply list_eq. intros i.
    rewrite list_lookup_imap, list_lookup_fmap. by destruct (_ !! i).
  - exists Sample.both, Sample.midway. repeat split.
  - exists Sample.neither, Sample.midway. repeat split.
Qed.

(** ** The one-shot flag *)

(** C1.  With no outcomes, or with no snapshot, the attempt leaves the page
    as it was: no record, no write, and the flag [metricsCalculated] still
    unset, so that the effect of a silent run never leaves for the
    thank-you page; a session that passes the guard sets the flag. *)
Theorem missing_precondition_leaves_flag_unset :
  calculateMetrics Sample.noOutcomes (freshPage false) = freshPage false
  /\ calculateMetrics Sample.noSnapshot (freshPage false) = freshPage false
  /\ metrics (calculateMetrics Sample.noOutcomes (freshPage false)) = None
  /\ inserted (calculateMetrics Sample.noOutcomes (freshPage false)) = []
  /\ metricsCalculated (calculateMetrics Sample.noOutcomes (freshPage false)) = false
  /\ metricsCalculated (calculateMetrics Sample.noSnapshot (freshPage false)) = false
  /\ leftForThankYou (useEffect Sample.noOutcomes (freshPage false)) = false
  /\ metricsCalculated (calculateMetrics Sample.session (freshPage false)) = true
  /\ leftForThankYou (useEffect Sample.session (freshPage false)) = true.
Proof. repeat split. Qed.

(** ** Event counters *)

Lemma detail_of_record (env : Env) (m : SimulationMetrics) (d : ScenarioDetail) :
  d ∈ scenarioDetails (sessionDVs env m) ->
  exists (i : nat) (o : ScenarioOutcome),
    simulationOutcomes env !! i = Some o
    /\ d = detailOf (matchedStableValuesOf env) (moralValuesReorderListOf env)
             (allEvents env) (decisionTimes (sessionDVs env m))
             (scenarioDetailsMapOf env) o i.
Proof.
  rewrite scenarioDetails_spec. intros (i & o & Hd & Ho)%elem_of_lookup_imap. eauto.
Qed.

Lemma countIf_nonneg {A} (p : A -> bool) (l : list A) : 0 <= countIf p l.
Proof. unfold countIf. lia. Qed.

Lemma countIf_le {A} (p : A -> bool) (l : list A) : countIf p l <= JS.len l.
Proof.
  unfold countIf, JS.len. apply inj_le. induction l as [| x l IH]; simpl; [lia |].
  destruct (p x); simpl; lia.
Qed.

Lemma countIf_complement {A} (p : A -> bool) (l : list A) :
  countIf (fun x => negb (p x)) l + countIf p l = JS.len l.
Proof.
  unfold countIf, JS.len. induction l as [| x l IH]; simpl; [lia |].
  destruct (p x); simpl; lia.
Qed.

Lemma countIf_fmap {A B} (f : A -> B) (p : B -> bool) (l : list A) :
  countIf p (map f l) = countIf (fun x => p (f x)) l.
Proof.
  unfold countIf. f_equal. induction l as [| x l IH]; simpl; [done |].
  destruct (p (f x)); simpl; by rewrite IH.
Qed.

(** X1.  The three views of the log are disjoint, and the yes and no answers
    split the answered events that carry a boolean. *)
Theorem event_counters_partition (env : Env) (m : SimulationMetrics) :
  cvrArrivals (sessionDVs env m) + JS.len (cvrAnswerEventsOf (allEvents env))
    + apaReorderings (sessionDVs env m) <= JS.len (allEvents env)
  /\ 0 <= cvrYesCount (sessionDVs env m)
  /\ 0 <= cvrNoCount (sessionDVs env m)
  /\ cvrYesCount (sessionDVs env m) + cvrNoCount (sessionDVs env m)
     <= JS.len (cvrAnswerEventsOf (allEvents env))
  /\ ((forall e, e ∈ allEvents env -> event e = "cvr_answered" -> is_Some (cvrAnswer e)) ->
      cvrYesCount (sessionDVs env m) + cvrNoCount (sessionDVs env m)
      = JS.len (cvrAnswerEventsOf (allEvents env))).
Proof.
  unfold sessionDVs. cbn [cvrArrivals apaReorderings cvrYesCount cvrNoCount].
  unfold cvrOpenEventsOf, cvrAnswerEventsOf, apaEventsOf, JS.len, isEvent.
  generalize (allEvents env) as events. intros events.
  split; [| split; [lia | split; [lia | split]]].
  - induction events as [| e events IH]; simpl; [lia |].
    destruct (String.eqb_spec (event e) "cvr_opened") as [H1 | H1],
             (String.eqb_spec (event e) "cvr_answered") as [H2 | H2],
             (String.eqb_spec (event e) "apa_reordered") as [H3 | H3];
      simpl; try lia; congruence.
  - induction events as [| e events IH]; simpl; [lia |].
    destruct (event e =? "cvr_answered")%string; simpl; [| exact IH].
    assert (Hx : answered true e = true -> answered false e = false).
    { unfold answered. by destruct (cvrAnswer e) as [[|] |]. }
    destruct (answered true e); [rewrite Hx by done |];
      destruct (answered false e); simpl; lia.
  - intros Hall. induction events as [| e events IH]; simpl; [lia |].
    assert (IH' : forall e0, e0 ∈ events -> event e0 = "cvr_answered" -> is_Some (cvrAnswer e0)).
    { intros e0 Hin. apply Hall. by apply list_elem_of_further. }
    specialize (IH IH').
    destruct (String.eqb_spec (event e) "cvr_answered") as [Hk | Hk]; simpl; [| exact IH].
    destruct (Hall e (list_elem_of_here _ _) Hk) as [a Ha].
    assert (Hx : answered true e = negb (answered false e)).
    { unfold answered. rewrite Ha. by destruct a. }
    rewrite Hx. destruct (answered false e); simpl; lia.
Qed.

(** ** Consistency index and counters *)

Lemma aligned_details (env : Env) (m : SimulationMetrics) :
  map aligned (scenarioDetails (sessionDVs env m))
  = finalAlignmentByScenario (sessionDVs env m).
Proof.
  rewrite scenarioDetails_spec, finalAlignmentByScenario_spec.
  change (map ?f ?l) with (f <$> l). rewrite fmap_imap. apply list_eq. intros i.
  rewrite list_lookup_imap, list_lookup_fmap. by destruct (_ !! i).
Qed.

Lemma valueConsistencyIndex_spec (env : Env) (m : SimulationMetrics) :
  valueConsistencyIndex (sessionDVs env m)
  = if 0 <? JS.len (finalAlignmentByScenario (sessionDVs env m))
    then (inject_Z (countIf (fun b : bool => b) (finalAlignmentByScenario (sessionDVs env m)))
          / inject_Z (JS.len (finalAlignmentByScenario (sessionDVs env m))))%Q
    else 0%Q.
Proof. reflexivity. Qed.

(** X2.  Every outcome is either aligned or counted as misaligned, so the
    consistency index is the quotient of outcomes minus misaligned by
    outcomes; it lies between 0 and 1, is 1 exactly when no scenario is
    misaligned and 0 exactly when all are, and neither counter exceeds the
    number of outcomes. *)
Theorem misaligned_share (env : Env) (m : SimulationMetrics) :
  simulationOutcomes env <> [] ->
  misalignAfterCvrApaCount (sessionDVs env m)
    + countIf (fun b : bool => b) (finalAlignmentByScenario (sessionDVs env m))
  = JS.len (simulationOutcomes env)
  /\ valueConsistencyIndex (sessionDVs env m)
     = (inject_Z (JS.len (simulationOutcomes env)
                  - misalignAfterCvrApaCount (sessionDVs env m))
        / inject_Z (JS.len (simulationOutcomes env)))%Q
  /\ (0 <= valueConsistencyIndex (sessionDVs env m) <= 1)%Q
  /\ ((valueConsistencyIndex (sessionDVs env m) == 1)%Q
      <-> misalignAfterCvrApaCount (sessionDVs env m) = 0)
  /\ ((valueConsistencyIndex (sessionDVs env m) == 0)%Q
      <-> misalignAfterCvrApaCount (sessionDVs env m) = JS.len (simulationOutcomes env))
  /\ 0 <= misalignAfterCvrApaCount (sessionDVs env m) <= JS.len (simulationOutcomes env)
  /\ 0 <= realignAfterCvrApaCount (sessionDVs env m) <= JS.len (simulationOutcomes env).
Proof.
  intros Hne.
  destruct (counts_spec env m) as [Hmis Hre].
  assert (Hlen : JS.len (scenarioDetails (sessionDVs env m)) = JS.len (simulationOutcomes env)).
  { unfold JS.len. by rewrite scenarioDetails_spec, length_imap. }
  assert (Hlen' : JS.len (finalAlignmentByScenario (sessionDVs env m))
                  = JS.len (simulationOutcomes env)).
  { unfold JS.len. by rewrite finalAlignmentByScenario_spec, length_map. }
  assert (Hpos : 0 < JS.len (simulationOutcomes env)).
  { unfold JS.len. destruct (simulationOutcomes env); [done | simpl; lia]. }
  assert (Hsum : misalignAfterCvrApaCount (sessionDVs env m)
                 + countIf (fun b : bool => b) (finalAlignmentByScenario (sessionDVs env m))
                 = JS.len (simulationOutcomes env)).
  { rewrite Hmis, <- aligned_details, countIf_fmap.
    rewrite (countIf_complement aligned). exact Hlen. }
  pose proof (countIf_nonneg (fun b : bool => b)
                (finalAlignmentByScenario (sessionDVs env m))) as Ha0.
  pose proof (countIf_nonneg (fun d => negb (aligned d))
                (scenarioDetails (sessionDVs env m))) as Hm0.
  pose proof (countIf_nonneg (reorderedAtConfirmation (allEvents env))
                (scenarioDetails (sessionDVs env m))) as Hr0.
  pose proof (countIf_le (reorderedAtConfirmation (allEvents env))
                (scenarioDetails (sessionDVs env m))) as Hr1.
  rewrite <- Hmis in Hm0. rewrite <- Hre in Hr0, Hr1. rewrite Hlen in Hr1.
  assert (Hvci : valueConsistencyIndex (sessionDVs env m)
     = (inject_Z (JS.len (simulationOutcomes env)
                  - misalignAfterCvrApaCount (sessionDVs env m))
        / inject_Z (JS.len (simulationOutcomes env)))%Q).
  { rewrite valueConsistencyIndex_spec, Hlen'.
    rewrite (proj2 (Z.ltb_lt _ _) Hpos). do 2 f_equal. lia. }
  set (n := JS.len (simulationOutcomes env)) in *.
  set (mis := misalignAfterCvrApaCount (sessionDVs env m)) in *.
  assert (Hnq : (0 < inject_Z n)%Q).
  { change 0%Q with (inject_Z 0). rewrite <- Zlt_Qlt. exact Hpos. }
  assert (Hquot : forall k : Z,
             (inject_Z (n - mis) / inject_Z n == inject_Z k)%Q <-> n - mis = k * n).
  { intros k. split.
    - intros Hq. apply (Qmult_inj_r _ _ (inject_Z n)) in Hq; [| lra].
      rewrite Qmult_comm, Qmult_div_r in Hq by lra.
      rewrite <- inject_Z_mult in Hq. exact (proj1 (inject_Z_injective _ _) Hq).
    - intros Hk. rewrite Hk, inject_Z_mult. field. lra. }
  split; [exact Hsum |]. split; [exact Hvci |]. rewrite Hvci.
  split; [| split; [| split; [| split; lia]]].
  - split.
    + apply Qle_shift_div_l; [exact Hnq |]. rewrite Qmult_0_l.
      change 0%Q with (inject_Z 0). rewrite <- Zle_Qle. lia.
    + apply Qle_shift_div_r; [exact Hnq |]. rewrite Qmult_1_l.
      rewrite <- Zle_Qle. lia.
  - change 1%Q with (inject_Z 1). rewrite Hquot. lia.
  - change 0%Q with (inject_Z 0). rewrite Hquot. lia.
Qed.

(** ** Value-order trajectories *)

Lemma recordTrajectory_spec (events : list TelemetryEvent) (i : nat) (acc : list Trajectory) :
  JS.forEachFrom recordTrajectory events i acc
  = acc ++ omap (fun e => match valuesAfter e, ev_scenarioId e with
                          | Some values, Some id =>
                              Some {| vt_scenarioId := id;
                                      vt_values := values;
                                      vt_preferenceType :=
                                        JS.orStr (preferenceType e) "unknown" |}
                          | _, _ => None
                          end) events.
Proof.
  revert i acc. induction events as [| e events IH]; intros i acc; simpl.
  - by rewrite app_nil_r.
  - rewrite IH. unfold recordTrajectory.
    destruct (valuesAfter e), (ev_scenarioId e); simpl; try done.
    by rewrite <- app_assoc.
Qed.

Lemma orStr_nonempty (x : option string) (d : string) :
  d <> EmptyString -> JS.orStr x d <> EmptyString.
Proof.
  intros Hd. unfold JS.orStr, JS.truthyStr. destruct x as [s |]; [| done].
  destruct (String.eqb_spec s EmptyString); done.
Qed.

(** X3.  There is one trajectory for each [apa_reordered] event that carries
    both [valuesAfter] and a scenario id, in log order, and none for the
    others; the preference type of a trajectory is never empty. *)
Theorem trajectories_follow_apa_events (env : Env) (m : SimulationMetrics) :
  Forall2 (fun e t => ev_scenarioId e = Some (vt_scenarioId t)
                      /\ valuesAfter e = Some (vt_values t)
                      /\ vt_preferenceType t = JS.orStr (preferenceType e) "unknown")
    (List.filter (fun e => bool_decide (is_Some (valuesAfter e))
                           && bool_decide (is_Some (ev_scenarioId e)))
       (apaEventsOf (allEvents env)))
    (valueOrderTrajectories (sessionDVs env m))
  /\ JS.len (valueOrderTrajectories (sessionDVs env m)) <= apaReorderings (sessionDVs env m)
  /\ (forall t, t ∈ valueOrderTrajectories (sessionDVs env m) ->
                vt_preferenceType t <> EmptyString).
Proof.
  unfold sessionDVs. cbn [valueOrderTrajectories apaReorderings].
  unfold JS.forEach. rewrite recordTrajectory_spec. simpl.
  generalize (apaEventsOf (allEvents env)) as events. intros events.
  split; [| split].
  - induction events as [| e events IH]; simpl; [constructor |].
    destruct (valuesAfter e) as [values |] eqn:Hv,
             (ev_scenarioId e) as [id |] eqn:Hi; simpl; try exact IH.
    constructor; [by rewrite Hv, Hi | exact IH].
  - unfold JS.len. apply inj_le.
    induction events as [| e events IH]; simpl; [lia |].
    destruct (valuesAfter e), (ev_scenarioId e); simpl;
      [apply le_n_S | apply le_S ..]; exact IH.
  - intros t (e & _ & He)%list_elem_of_omap.
    destruct (valuesAfter e), (ev_scenarioId e); try done.
    injection He as <-. simpl. by apply orStr_nonempty.
Qed.

(** ** Final choice *)

(** X4.  The final choice shown for the outcome at each index is its
    decision title when that is present and not empty, else its label when
    that is present and not empty, else the word Unknown; it is never
    empty. *)
Theorem finalChoice_never_empty
    (env : Env) (m : SimulationMetrics) (i : nat) (o : ScenarioOutcome) :
  simulationOutcomes env !! i = Some o ->
  exists d : ScenarioDetail,
    scenarioDetails (sessionDVs env m) !! i = Some d
    /\ finalChoice d <> EmptyString
    /\ (forall t, title (decision o) = Some t -> t <> EmptyString -> finalChoice d = t)
    /\ (title (decision o) = None \/ title (decision o) = Some EmptyString ->
        forall l, label (decision o) = Some l -> l <> EmptyString -> finalChoice d = l)
    /\ (title (decision o) = None \/ title (decision o) = Some EmptyString ->
        label (decision o) = None \/ label (decision o) = Some EmptyString ->
        finalChoice d = "Unknown").
Proof.
  intros Ho. eexists. split; [by apply scenarioDetails_lookup |].
  cbn [detailOf finalChoice]. unfold JS.orStr, JS.truthyStr.
  split; [| split; [| split]].
  - destruct (title (decision o)) as [t |].
    + destruct (String.eqb_spec t EmptyString); [| done].
      destruct (label (decision o)) as [l |]; [| done].
      by destruct (String.eqb_spec l EmptyString).
    + destruct (label (decision o)) as [l |]; [| done].
      by destruct (String.eqb_spec l EmptyString).
  - intros t -> Ht. by destruct (String.eqb_spec t EmptyString).
  - intros Ht l -> Hl.
    assert (Hlab : (if String.eqb l EmptyString then None else Some l) = Some l).
    { by destruct (String.eqb_spec l EmptyString). }
    rewrite Hlab. by destruct Ht as [-> | ->].
  - intros Ht Hl. by destruct Ht as [-> | ->], Hl as [-> | ->].
Qed.

(** ** Sessions without timing *)

Lemma sumQ_replicate (n : nat) (x a : Q) :
  (fold_left Qplus (replicate n x) a == a + inject_Z (Z.of_nat n) * x)%Q.
Proof.
  revert a. induction n as [| n IH]; intros a.
  - simpl. change (inject_Z 0) with 0%Q. ring.
  - cbn [replicate fold_left]. rewrite IH.
    rewrite Nat2Z.inj_succ. unfold Z.succ. rewrite inject_Z_plus.
    change (inject_Z 1) with 1%Q. ring.
Qed.

(** X5.  When no tracking record has usable timing, a session with
    outcomes has an average decision time of 75 seconds and every detail
    record shows 75 seconds. *)
Theorem untimed_session_shows_75 (env : Env) (m : SimulationMetrics) :
  simulationOutcomes env <> [] ->
  (forall r, r ∈ scenarioHistory env -> usableTiming r = None) ->
  (avgDecisionTime (sessionDVs env m) == 75)%Q
  /\ forall d, d ∈ scenarioDetails (sessionDVs env m) -> timeSeconds d = 75%Q.
Proof.
  intros Hne Hnone.
  assert (Ht : decisionTimes (sessionDVs env m)
               = replicate (length (simulationOutcomes env)) 75%Q).
  { rewrite decisionTimes_spec. apply timedHistory_nil in Hnone. by rewrite Hnone. }
  split.
  - change (avgDecisionTime (sessionDVs env m))
      with (average (decisionTimes (sessionDVs env m))).
    rewrite Ht. unfold average, JS.len, JS.sumQ. rewrite length_replicate.
    destruct (simulationOutcomes env) as [| o rest]; [done |].
    set (n := length (o :: rest)).
    assert (Hpos : 0 < Z.of_nat n) by (unfold n; cbn [length]; lia).
    rewrite (proj2 (Z.ltb_lt _ _) Hpos). rewrite sumQ_replicate.
    assert (Hn : ~ (inject_Z (Z.of_nat n) == 0)%Q).
    { intros H0. unfold Qeq in H0. cbn [Qnum Qden inject_Z] in H0. lia. }
    field. exact Hn.
  - intros d (i & o & Ho & ->)%detail_of_record. cbn [detailOf timeSeconds].
    rewrite trackingDataOf_spec.
    assert (Hl : lastTimed (so_scenarioId o) (scenarioHistory env) = None).
    { apply lastTimed_None. intros r Hin _. by apply Hnone. }
    rewrite Hl. cbn [untrackedData td_timeSeconds]. rewrite Ht.
    rewrite lookup_replicate_2 by (by apply lookup_lt_Some in Ho).
    reflexivity.
Qed.

(** ** Scenarios without a timed tracking record *)

(** X6.  For a scenario that has no tracking record with usable timing, the
    detail record is consistent with the log: the visited and reordered
    flags hold exactly when their counts are positive, the switch count is
    the number of selections after the first and is never negative, and an
    aligned scenario has no yes answer. *)
Theorem untracked_detail_consistent
    (env : Env) (m : SimulationMetrics) (i : nat) (o : ScenarioOutcome) (d : ScenarioDetail) :
  simulationOutcomes env !! i = Some o ->
  scenarioDetails (sessionDVs env m) !! i = Some d ->
  (forall r, r ∈ scenarioHistory env -> st_scenarioId r = so_scenarioId o ->
             usableTiming r = None) ->
  cvrVisited d = (0 <? cvrVisitCount d)
  /\ apaReordered d = (0 <? apaReorderCount d)
  /\ 0 <= switches d
  /\ (0 < JS.len (scenarioOptionSelectionsOf (allEvents env) o) ->
      switches d = JS.len (scenarioOptionSelectionsOf (allEvents env) o) - 1)
  /\ 0 <= cvrVisitCount d /\ 0 <= cvrYesAnswers d /\ 0 <= apaReorderCount d
  /\ (aligned d = true -> cvrYesAnswers d = 0).
Proof.
  intros Ho Hd Hnone. rewrite (scenarioDetails_lookup env m i o Ho) in Hd.
  apply (inj Some) in Hd. subst d.
  assert (Hl : lastTimed (so_scenarioId o) (scenarioHistory env) = None).
  { by apply lastTimed_None. }
  unfold detailOf.
  cbn [cvrVisited cvrVisitCount apaReordered apaReorderCount switches cvrYesAnswers aligned].
  rewrite trackingDataOf_spec, Hl. unfold untrackedData, orElse.
  cbn [td_switches td_cvrVisited td_cvrVisitCount td_cvrYesAnswers
       td_apaReordered td_apaReorderCount].
  change (0 =? 0) with true. cbn [orb]. unfold JS.len.
  repeat split; try lia.
  unfold alignedOf. intros [_ Hz]%andb_true_iff. apply Z.eqb_eq in Hz. exact Hz.
Qed.

(** ** Per-scenario counts against the session totals *)

Lemma sumZ_from (l : list Z) (a : Z) : fold_left Z.add l a = a + JS.sumZ l.
Proof.
  unfold JS.sumZ. revert a. induction l as [| x l IH]; intros a; simpl; [lia |].
  rewrite IH, (IH (0 + x)). lia.
Qed.

Lemma sumZ_cons (x : Z) (l : list Z) : JS.sumZ (x :: l) = x + JS.sumZ l.
Proof. unfold JS.sumZ at 1. simpl. apply sumZ_from. Qed.

Lemma sumZ_nonneg (l : list Z) : (forall x, x ∈ l -> 0 <= x) -> 0 <= JS.sumZ l.
Proof.
  induction l as [| x l IH]; intros H; [done |].
  rewrite sumZ_cons. pose proof (H x (list_elem_of_here _ _)).
  assert (0 <= JS.sumZ l); [| lia].
  apply IH. intros y Hy. apply H. by apply list_elem_of_further.
Qed.

(** An event is attributed to at most one of a list of distinct scenarios. *)
Lemma attributed_once (ids : list Z) (e : TelemetryEvent) :
  NoDup ids -> JS.sumZ (map (fun id => if inScenario id e then 1 else 0) ids) <= 1.
Proof.
  intros Hnd. unfold inScenario. destruct (ev_scenarioId e) as [j |].
  - induction Hnd as [| id ids Hnin Hnd IH]; [done |].
    cbn [map]. rewrite sumZ_cons.
    destruct (Z.eqb_spec j id) as [-> | Hne]; [| cbv iota; lia].
    assert (Hz : JS.sumZ (map (fun id0 => if id =? id0 then 1 else 0) ids) = 0);
      [| cbv iota; lia].
    clear IH Hnd. induction ids as [| k ids IHk]; [done |].
    apply not_elem_of_cons in Hnin as [Hk Hin].
    cbn [map]. rewrite sumZ_cons, (IHk Hin).
    destruct (Z.eqb_spec id k); [done | cbv iota; lia].
  - assert (Hz : JS.sumZ (map (fun _ : Z => 0) ids) = 0); [| lia].
    clear Hnd. induction ids as [| k ids IHk]; [done |].
    cbn [map]. by rewrite sumZ_cons, IHk.
Qed.

Lemma scenario_counts_le (q : TelemetryEvent -> bool) (ids : list Z)
    (events : list TelemetryEvent) :
  NoDup ids ->
  JS.sumZ (map (fun id => JS.len (List.filter (fun e => inScenario id e && q e) events)) ids)
  <= JS.len events.
Proof.
  intros Hnd. induction events as [| e events IH].
  - assert (Hz : forall l : list Z,
               JS.sumZ (map (fun id => JS.len (List.filter
                         (fun e => inScenario id e && q e) [])) l) = 0).
    { induction l as [| k l IHl]; [done |]. cbn [map]. by rewrite sumZ_cons, IHl. }
    rewrite Hz. done.
  - assert (Hsplit : forall l : list Z,
               JS.sumZ (map (fun id => JS.len (List.filter
                         (fun e0 => inScenario id e0 && q e0) (e :: events))) l)
               <= JS.sumZ (map (fun id => if inScenario id e then 1 else 0) l)
                  + JS.sumZ (map (fun id => JS.len (List.filter
                         (fun e0 => inScenario id e0 && q e0) events)) l)).
    { induction l as [| k l IHl]; [done |].
      assert (Hhead : JS.len (List.filter (fun e0 => inScenario k e0 && q e0) (e :: events))
                      = (if inScenario k e && q e then 1 else 0)
                        + JS.len (List.filter (fun e0 => inScenario k e0 && q e0) events)).
      { cbn [List.filter]. unfold JS.len.
        destruct (inScenario k e && q e); cbn [length]; lia. }
      cbn [map]. rewrite !sumZ_cons, Hhead.
      destruct (inScenario k e), (q e); cbn [andb]; cbv iota; lia. }
    pose proof (Hsplit ids). pose proof (attributed_once ids e Hnd).
    unfold JS.len in *. cbn [length]. lia.
Qed.

Lemma filter_and_true {A} (p : A -> bool) (l : list A) :
  List.filter p l = List.filter (fun x => p x && true) l.
Proof. apply filter_ext. intros x. by rewrite andb_true_r. Qed.

(** X7.  In a session without usable timing whose outcomes name distinct
    scenarios, the per-scenario visit, yes-answer and reorder counts of the
    detail records add up to at most the session totals. *)
Theorem scenario_counts_within_totals (env : Env) (m : SimulationMetrics) :
  NoDup (map so_scenarioId (simulationOutcomes env)) ->
  (forall r, r ∈ scenarioHistory env -> usableTiming r = None) ->
  JS.sumZ (map cvrVisitCount (scenarioDetails (sessionDVs env m)))
    <= cvrArrivals (sessionDVs env m)
  /\ JS.sumZ (map cvrYesAnswers (scenarioDetails (sessionDVs env m)))
     <= cvrYesCount (sessionDVs env m)
  /\ JS.sumZ (map apaReorderCount (scenarioDetails (sessionDVs env m)))
     <= apaReorderings (sessionDVs env m).
Proof.
  intros Hnd Hnone.
  assert (Hfield : forall (field : ScenarioDetail -> Z) (count : ScenarioOutcome -> Z),
             (forall o i, field (detailOf (matchedStableValuesOf env)
                                   (moralValuesReorderListOf env) (allEvents env)
                                   (decisionTimes (sessionDVs env m))
                                   (scenarioDetailsMapOf env) o i) = count o) ->
             map field (scenarioDetails (sessionDVs env m))
             = map count (simulationOutcomes env)).
  { intros field count Hf. rewrite scenarioDetails_spec.
    change (map ?f ?l) with (f <$> l). rewrite fmap_imap. apply list_eq. intros i.
    rewrite list_lookup_imap, list_lookup_fmap.
    destruct (_ !! i); simpl; [| done]. by rewrite Hf. }
  assert (Hun : forall o i,
             trackingDataOf (decisionTimes (sessionDVs env m)) (scenarioDetailsMapOf env) o i
             = untrackedData (decisionTimes (sessionDVs env m)) i).
  { intros o i. rewrite trackingDataOf_spec.
    assert (Hl : lastTimed (so_scenarioId o) (scenarioHistory env) = None).
    { apply lastTimed_None. intros r Hin _. by apply Hnone. }
    by rewrite Hl. }
  assert (Hids : forall (f : Z -> Z),
             map (fun o => f (so_scenarioId o)) (simulationOutcomes env)
             = map f (map so_scenarioId (simulationOutcomes env))).
  { intros f. by rewrite map_map. }
  split; [| split].
  - rewrite (Hfield cvrVisitCount
               (fun o => JS.len (scenarioCvrVisitsOf (allEvents env) o))).
    + unfold scenarioCvrVisitsOf.
      rewrite (Hids (fun id => JS.len (List.filter (inScenario id)
                                         (cvrOpenEventsOf (allEvents env))))).
      erewrite map_ext; [| intros id; rewrite filter_and_true; reflexivity].
      apply scenario_counts_le, Hnd.
    + intros o i. unfold detailOf. cbn [cvrVisitCount]. by rewrite Hun.
  - rewrite (Hfield cvrYesAnswers
               (fun o => JS.len (scenarioCvrYesAnswersOf (allEvents env) o))).
    + unfold scenarioCvrYesAnswersOf.
      rewrite (Hids (fun id => JS.len (List.filter
                                         (fun e => inScenario id e && answered true e)
                                         (cvrAnswerEventsOf (allEvents env))))).
      unfold sessionDVs. cbn [cvrYesCount].
      generalize (cvrAnswerEventsOf (allEvents env)) as events. intros events.
      clear -Hnd. revert Hnd. generalize (map so_scenarioId (simulationOutcomes env)) as ids.
      intros ids Hnd.
      induction events as [| e events IH].
      * assert (Hz : forall l : list Z,
                   JS.sumZ (map (fun id => JS.len (List.filter
                             (fun e => inScenario id e && answered true e) [])) l) = 0).
        { induction l as [| k l IHl]; [done |]. cbn [map]. by rewrite sumZ_cons, IHl. }
        by rewrite Hz.
      * assert (Hsplit : forall l : list Z,
               JS.sumZ (map (fun id => JS.len (List.filter
                         (fun e0 => inScenario id e0 && answered true e0) (e :: events))) l)
               = (if answered true e
                  then JS.sumZ (map (fun id => if inScenario id e then 1 else 0) l)
                  else 0)
                 + JS.sumZ (map (fun id => JS.len (List.filter
                         (fun e0 => inScenario id e0 && answered true e0) events)) l)).
        { induction l as [| k l IHl]; [by destruct (answered true e) |].
          assert (Hhead : JS.len (List.filter
                            (fun e0 => inScenario k e0 && answered true e0) (e :: events))
                          = (if inScenario k e && answered true e then 1 else 0)
                            + JS.len (List.filter
                                (fun e0 => inScenario k e0 && answered true e0) events)).
          { cbn [List.filter]. unfold JS.len.
            destruct (inScenario k e && answered true e); cbn [length]; lia. }
          cbn [map]. rewrite !sumZ_cons, IHl, Hhead.
          destruct (inScenario k e), (answered true e); cbn [andb]; cbv iota; lia. }
        rewrite Hsplit. pose proof (attributed_once ids e Hnd).
        cbn [List.filter]. unfold JS.len in *.
        destruct (answered true e); cbn [length]; lia.
    + intros o i. unfold detailOf. cbn [cvrYesAnswers]. by rewrite Hun.
  - rewrite (Hfield apaReorderCount
               (fun o => JS.len (scenarioApaEventsOf (allEvents env) o))).
    + unfold scenarioApaEventsOf.
      rewrite (Hids (fun id => JS.len (List.filter (inScenario id)
                                         (apaEventsOf (allEvents env))))).
      erewrite map_ext; [| intros id; rewrite filter_and_true; reflexivity].
      apply scenario_counts_le, Hnd.
    + intros o i. unfold detailOf. cbn [apaReorderCount]. by rewrite Hun.
Qed.

(** ** Switch counts *)

(** X8.  When no tracked switch count is negative, no detail record has a
    negative switch count, and the session total is at least each of
    them. *)
Theorem switchCountTotal_bounds (env : Env) (m : SimulationMetrics) :
  (forall r v, r ∈ scenarioHistory env -> switchCount r = Some v -> 0 <= v) ->
  forall d, d ∈ scenarioDetails (sessionDVs env m) ->
    0 <= switches d <= switchCountTotal (sessionDVs env m).
Proof.
  intros Htracked.
  assert (Hnn : forall d, d ∈ scenarioDetails (sessionDVs env m) -> 0 <= switches d).
  { intros d (i & o & Ho & ->)%detail_of_record. unfold detailOf. cbn [switches].
    rewrite trackingDataOf_spec. unfold orElse.
    destruct (lastTimed (so_scenarioId o) (scenarioHistory env)) as [r |] eqn:Hl.
    - apply lastTimed_Some in Hl as (Hin & _ & Hu).
      apply timedSeconds_is_Some in Hu as [t Ht]. rewrite Ht.
      cbn [trackedData td_switches]. unfold JS.orNum, JS.truthyNum.
      destruct (switchCount r) as [v |] eqn:Hv; [| simpl; lia].
      pose proof (Htracked r v Hin Hv).
      destruct (Z.eqb_spec v 0); [simpl; lia |].
      destruct (Z.eqb_spec v 0); lia.
    - cbn [untrackedData td_switches]. simpl. lia. }
  change (switchCountTotal (sessionDVs env m))
    with (JS.sumZ (map switches (scenarioDetails (sessionDVs env m)))).
  revert Hnn. generalize (scenarioDetails (sessionDVs env m)) as details.
  induction details as [| d0 details IH]; intros Hnn d Hd.
  - by apply not_elem_of_nil in Hd.
  - cbn [map]. rewrite sumZ_cons.
    assert (H0 : 0 <= switches d0) by apply Hnn, list_elem_of_here.
    assert (Hrest : 0 <= JS.sumZ (map switches details)).
    { apply sumZ_nonneg. intros x (d' & -> & Hd')%list_elem_of_fmap.
      apply Hnn. by apply list_elem_of_further. }
    apply elem_of_cons in Hd as [-> | Hd]; [lia |].
    assert (Hd' : 0 <= switches d <= JS.sumZ (map switches details)).
    { apply IH; [| done]. intros d' Hin. apply Hnn. by apply list_elem_of_further. }
    lia.
Qed.

(** ** The attempt and the effect *)

(** X10.  The flag stops a second computation only in silent mode: there,
    running the effect again after an attempt that passed the guard adds
    no write, and with the flag already set the effect computes nothing;
    outside silent mode a second run writes the same payload again. *)
Theorem effect_is_one_shot_only_when_silent (env : Env) (m : SimulationMetrics) :
  simulationOutcomes env <> [] -> finalMetrics env = Some m -> sinkAccepts env = true ->
  (isSilentMode env = true ->
   inserted (useEffect env (useEffect env (freshPage false)))
   = inserted (useEffect env (freshPage false))
   /\ length (inserted (useEffect env (freshPage false))) = 1%nat
   /\ metrics (useEffect env (freshPage true)) = None
   /\ inserted (useEffect env (freshPage true)) = []
   /\ leftForThankYou (useEffect env (freshPage true)) = true)
  /\ (isSilentMode env = false ->
      exists payload,
        inserted (useEffect env (freshPage false)) = [payload]
        /\ inserted (useEffect env (useEffect env (freshPage false))) = [payload; payload]
        /\ inserted (useEffect env (freshPage true)) = [payload]).
Proof.
  intros Hne Hm Hsink.
  assert (Hcalc : forall page,
             calculateMetrics env page
             = {| metrics := Some (sessionDVs env m);
                  metricsCalculated := true;
                  inserted := inserted page ++
                    [ {| session_id := sessionId env;
                         computed := sessionDVs env m;
                         moral_values_reorder_list :=
                           map JS.capitalize (moralValuesReorderListOf env) |} ];
                  leftForThankYou :=
                    if isSilentMode env then true else leftForThankYou page |}).
  { intros page. unfold calculateMetrics, JS.len. rewrite Hm, Hsink.
    destruct (simulationOutcomes env); [done | reflexivity]. }
  split; intros Hsilent; unfold useEffect; rewrite Hsilent.
  - cbn [andb freshPage metricsCalculated]. rewrite !Hcalc.
    cbn [metricsCalculated inserted metrics leftForThankYou]. done.
  - cbn [andb]. rewrite !Hcalc. cbn [inserted freshPage]. eexists. done.
Qed.

(** ** Value lists *)

Lemma lowerAscii_idempotent (c : ascii) : JS.lowerAscii (JS.lowerAscii c) = JS.lowerAscii c.
Proof. destruct c as [[] [] [] [] [] [] [] []]; reflexivity. Qed.


Lemma toLowerCase_idempotent (s : string) : JS.toLowerCase (JS.toLowerCase s) = JS.toLowerCase s.
Proof.
  induction s as [| c s IH]; simpl; [done |]. by rewrite lowerAscii_idempotent, IH.
Qed.


Lemma resolved_lower_case (env : Env) (x : string) :
  x ∈ matchedStableValuesOf env \/ x ∈ moralValuesReorderListOf env ->
  exists raw, x = JS.toLowerCase raw.
Proof.
  assert (Hm : x ∈ matchedStableValuesOf env -> exists raw, x = JS.toLowerCase raw).
  { unfold matchedStableValuesOf, resolveMatchedStableValues.
    change (map ?f ?l) with (f <$> l).
    intros (v & -> & _)%list_elem_of_fmap. unfold matchedIdentifier. eauto. }
  intros [H | H]; [by apply Hm |].
  unfold moralValuesReorderListOf, resolveMoralValuesReorderList in H.
  destruct (moralValuesReorder env) as [[| entries] |]; [by apply Hm | | by apply Hm].
  change (map ?f ?l) with (f <$> l) in H.
  apply list_elem_of_fmap in H as (v & -> & _). unfold reorderIdentifier. eauto.
Qed.

(** X11.  Every identifier of a reference set is in lower case, as the
    label it is compared with is. *)
Theorem reference_sets_lower_case (env : Env) (id : Z) (x : string) :
  x ∈ referenceSet env id -> JS.toLowerCase x = x.
Proof.
  unfold referenceSet. intros Hx.
  assert (Hin : x ∈ matchedStableValuesOf env \/ x ∈ moralValuesReorderListOf env).
  { repeat case_decide; auto. by apply not_elem_of_nil in Hx. }
  apply resolved_lower_case in Hin as [raw ->]. apply toLowerCase_idempotent.
Qed.


(** X13.  For a scenario with id 2 or 3: when the stored reorder list is
    absent or does not parse, the baseline list is its reference set; when
    it parses to an empty list there is no fallback and the scenario is
    never aligned. *)
Theorem reorder_list_fallback
    (env : Env) (m : SimulationMetrics) (i : nat) (o : ScenarioOutcome) :
  simulationOutcomes env !! i = Some o ->
  so_scenarioId o = 2 \/ so_scenarioId o = 3 ->
  (moralValuesReorder env = None \/ moralValuesReorder env = Some Malformed ->
   referenceSet env (so_scenarioId o) = referenceSet env 1)
  /\ (moralValuesReorder env = Some (Parsed []) ->
      finalAlignmentByScenario (sessionDVs env m) !! i = Some false).
Proof.
  intros Ho Hid. split.
  - intros Hfall. unfold referenceSet.
    rewrite decide_False by lia. rewrite decide_True by done.
    rewrite decide_True by done.
    unfold moralValuesReorderListOf, resolveMoralValuesReorderList.
    by destruct Hfall as [-> | ->].
  - intros Hempty. rewrite finalAlignmentByScenario_spec.
    change (map ?f ?l) with (f <$> l). rewrite list_lookup_fmap, Ho. simpl. f_equal.
    unfold alignedOf. apply andb_false_iff. left.
    apply not_true_is_false. rewrite valueExistsInList_referenceSet.
    unfold referenceSet. rewrite decide_False by lia. rewrite decide_True by done.
    unfold moralValuesReorderListOf, resolveMoralValuesReorderList. rewrite Hempty.
    simpl. apply not_elem_of_nil.
Qed.


(** ** Further properties of the composite indices *)

Section CompositeMore.

Local Open Scope Q_scope.

Lemma Math_min_saturates (a : Q) : 1 <= a -> JS.Math_min a 1 == 1.
Proof. intros Ha. unfold JS.Math_min. apply Q.min_r. exact Ha. Qed.

Lemma Math_min_below (a : Q) : a <= 1 -> JS.Math_min a 1 == a.
Proof. intros Ha. unfold JS.Math_min. apply Q.min_l. exact Ha. Qed.

Lemma Math_min_comp (a b : Q) : a == b -> JS.Math_min a 1 == JS.Math_min b 1.
Proof. intros Hab. unfold JS.Math_min. rewrite Hab. reflexivity. Qed.

(** X16.  Lives saved beyond 20000 and casualties beyond 1000 change neither
    index: the first two dimensions saturate. *)
Theorem composite_saturates (m : SimulationMetrics) (lives casualties : Q) :
  20000 <= livesSaved m -> 20000 <= lives ->
  1000 <= humanCasualties m -> 1000 <= casualties ->
  let m' := {| livesSaved := lives; humanCasualties := casualties;
               firefightingResource := firefightingResource m;
               infrastructureCondition := infrastructureCondition m;
               biodiversityCondition := biodiversityCondition m;
               propertiesCondition := propertiesCondition m;
               nuclearPowerStation := nuclearPowerStation m |} in
  calculatePerformanceComposite m' = calculatePerformanceComposite m
  /\ calculateBalanceIndex m' = calculateBalanceIndex m.
Proof.
  intros Hl Hl' Hc Hc' m'.
  assert (Ha : JS.Math_min (livesSaved m / 20000) 1 == 1).
  { apply Math_min_saturates. apply Qle_shift_div_l; lra. }
  assert (Ha' : JS.Math_min (lives / 20000) 1 == 1).
  { apply Math_min_saturates. apply Qle_shift_div_l; lra. }
  assert (Hb : JS.Math_min (humanCasualties m / 1000) 1 == 1).
  { apply Math_min_saturates. apply Qle_shift_div_l; lra. }
  assert (Hb' : JS.Math_min (casualties / 1000) 1 == 1).
  { apply Math_min_saturates. apply Qle_shift_div_l; lra. }
  unfold calculatePerformanceComposite, calculateBalanceIndex, m'.
  cbn [livesSaved humanCasualties firefightingResource infrastructureCondition
       biodiversityCondition propertiesCondition nuclearPowerStation].
  unfold JS.sumQ, JS.len, JS.Math_pow2. simpl fold_left. simpl length.
  change (inject_Z (Z.of_nat 7)) with 7.
  split; f_equal; apply Math_round_comp; rewrite Ha, Ha', Hb, Hb'; reflexivity.
Qed.

End CompositeMore.
Section CompositeMore2.
Local Open Scope Q_scope.

Lemma hundredth_bounds (x : Q) : 0 <= x -> x <= 100 -> 0 <= x / 100 /\ x / 100 <= 1.
Proof. intros. split; [apply Qle_shift_div_l | apply Qle_shift_div_r]; lra. Qed.

(** The variance of seven values of the unit interval is at most 1/4. *)
Lemma unit_variance (a b c1 c2 c3 c4 c5 : Q) :
  0 <= a <= 1 -> 0 <= b <= 1 -> 0 <= c1 <= 1 -> 0 <= c2 <= 1 ->
  0 <= c3 <= 1 -> 0 <= c4 <= 1 -> 0 <= c5 <= 1 ->
  let mean := (0 + a + b + c1 + c2 + c3 + c4 + c5) / 7 in
  (0 + (a - mean) * (a - mean) + (b - mean) * (b - mean)
   + (c1 - mean) * (c1 - mean) + (c2 - mean) * (c2 - mean)
   + (c3 - mean) * (c3 - mean) + (c4 - mean) * (c4 - mean)
   + (c5 - mean) * (c5 - mean)) / 7 <= 1 # 4.
Proof.
  intros Ha Hb H1 H2 H3 H4 H5 mean.
  apply Qle_shift_div_r; [lra |].
  assert (Hmean : 7 * mean == 0 + a + b + c1 + c2 + c3 + c4 + c5).
  { unfold mean. field. }
  assert (Hsq : forall x : Q, 0 <= x <= 1 -> x * x <= x).
  { intros x [Hx0 Hx1]. nra. }
  pose proof (Hsq a Ha). pose proof (Hsq b Hb). pose proof (Hsq c1 H1).
  pose proof (Hsq c2 H2). pose proof (Hsq c3 H3). pose proof (Hsq c4 H4).
  pose proof (Hsq c5 H5).
  assert (Hexp : 0 + (a - mean) * (a - mean) + (b - mean) * (b - mean)
   + (c1 - mean) * (c1 - mean) + (c2 - mean) * (c2 - mean)
   + (c3 - mean) * (c3 - mean) + (c4 - mean) * (c4 - mean)
   + (c5 - mean) * (c5 - mean)
   == a * a + b * b + c1 * c1 + c2 * c2 + c3 * c3 + c4 * c4 + c5 * c5
      - 2 * mean * (0 + a + b + c1 + c2 + c3 + c4 + c5) + 7 * (mean * mean)).
  { ring. }
  rewrite Hexp, <- Hmean.
  assert (Hm : 0 <= (mean - (1 # 2)) * (mean - (1 # 2))).
  { destruct (Qlt_le_dec (mean - (1 # 2)) 0); nra. }
  generalize dependent mean. intros mean Hmean _ Hm. nra.
Qed.

(** X17.  On a snapshot of non-negative fields whose condition fields are on
    their 0-100 scale, the balance index is at least 0.75. *)
Theorem balanceIndex_at_least_three_quarters (m : SimulationMetrics) :
  nonNegative m -> onScale m -> 75 # 100 <= calculateBalanceIndex m.
Proof.
  intros (Hl & Hh & Hf & Hi & Hb & Hp & Hn) (Hf' & Hi' & Hb' & Hp' & Hn').
  unfold calculateBalanceIndex.
  assert (Hdiv : forall x : Q, 75 <= x -> 75 # 100 <= x / 100).
  { intros x Hx. apply Qle_shift_div_l; lra. }
  apply Hdiv. apply (Math_round_ge _ 75). change (inject_Z 75) with 75.
  unfold JS.sumQ, JS.len, JS.Math_pow2. simpl fold_left. simpl length.
  change (inject_Z (Z.of_nat 7)) with 7.
  assert (Ha : 0 <= JS.Math_min (livesSaved m / 20000) 1 <= 1).
  { split; [apply Math_min_nonneg; [apply Qle_shift_div_l; lra | lra]
           | apply Math_min_le_r]. }
  assert (Hc : 0 <= 1 - JS.Math_min (humanCasualties m / 1000) 1 <= 1).
  { pose proof (Math_min_le_r (humanCasualties m / 1000) 1).
    assert (0 <= JS.Math_min (humanCasualties m / 1000) 1).
    { apply Math_min_nonneg; [apply Qle_shift_div_l; lra | lra]. }
    split; lra. }
  pose proof (hundredth_bounds _ Hf Hf') as H1.
  pose proof (hundredth_bounds _ Hi Hi') as H2.
  pose proof (hundredth_bounds _ Hb Hb') as H3.
  pose proof (hundredth_bounds _ Hp Hp') as H4.
  pose proof (hundredth_bounds _ Hn Hn') as H5.
  pose proof (unit_variance _ _ _ _ _ _ _ Ha Hc H1 H2 H3 H4 H5) as Hvar.
  cbv zeta in Hvar.
  set (v := (_ / 7)) in Hvar |- * at 1.

  lra.
Qed.
End CompositeMore2.

(** ** Instances on the sample sessions *)

Lemma misaligned_share_witness :
  simulationOutcomes Sample.session <> []
  /\ misalignAfterCvrApaCount (sessionDVs Sample.session Sample.midway) = 1
  /\ misalignAfterCvrApaCount (sessionDVs Sample.session Sample.midway)
     + countIf (fun b : bool => b)
         (finalAlignmentByScenario (sessionDVs Sample.session Sample.midway)) = 3
  /\ valueConsistencyIndex (sessionDVs Sample.session Sample.midway) = (2 # 3)%Q.
Proof.
  assert (Hne : simulationOutcomes Sample.session <> []) by discriminate.
  destruct (misaligned_share Sample.session Sample.midway Hne) as (Hs & Hv & _).
  split; [exact Hne |]. split; [reflexivity |]. split; [exact Hs | exact Hv].
Defined.

Lemma finalChoice_never_empty_witness :
  (exists d : ScenarioDetail,
      scenarioDetails (sessionDVs Sample.titled Sample.midway) !! 0%nat = Some d
      /\ finalChoice d = "Protect lives")
  /\ (exists d : ScenarioDetail,
        scenarioDetails (sessionDVs Sample.titled Sample.midway) !! 1%nat = Some d
        /\ finalChoice d = "Fairness")
  /\ (exists d : ScenarioDetail,
        scenarioDetails (sessionDVs Sample.titled Sample.midway) !! 2%nat = Some d
        /\ finalChoice d = "Unknown").
Proof.
  split; [| split].
  - destruct (finalChoice_never_empty Sample.titled Sample.midway 0 _ eq_refl)
      as (d & Hd & _ & Htitle & _).
    exists d. split; [exact Hd |]. by apply Htitle.
  - destruct (finalChoice_never_empty Sample.titled Sample.midway 1 _ eq_refl)
      as (d & Hd & _ & _ & Hlabel & _).
    exists d. split; [exact Hd |]. apply Hlabel; [by right | done | done].
  - destruct (finalChoice_never_empty Sample.titled Sample.midway 2 _ eq_refl)
      as (d & Hd & _ & _ & _ & Hunknown).
    exists d. split; [exact Hd |]. apply Hunknown; by left.
Defined.

Lemma untimed_session_shows_75_witness :
  simulationOutcomes Sample.both <> []
  /\ (forall r, r ∈ scenarioHistory Sample.both -> usableTiming r = None)
  /\ (avgDecisionTime (sessionDVs Sample.both Sample.midway) == 75)%Q.
Proof.
  assert (Hne : simulationOutcomes Sample.both <> []) by discriminate.
  assert (Hnone : forall r, r ∈ scenarioHistory Sample.both -> usableTiming r = None).
  { intros r Hr. by apply not_elem_of_nil in Hr. }
  split; [exact Hne |]. split; [exact Hnone |].
  exact (proj1 (untimed_session_shows_75 Sample.both Sample.midway Hne Hnone)).
Defined.

Lemma untracked_detail_consistent_witness :
  (exists d : ScenarioDetail,
      scenarioDetails (sessionDVs Sample.session Sample.midway) !! 1%nat = Some d
      /\ switches d = 2
      /\ aligned d = true
      /\ cvrYesAnswers d = 0)
  /\ (exists d : ScenarioDetail,
        scenarioDetails (sessionDVs Sample.untimed Sample.midway) !! 1%nat = Some d
        /\ cvrVisitCount d = 2
        /\ cvrVisited d = true
        /\ apaReorderCount d = 1
        /\ apaReordered d = true).
Proof.
  split.
  - assert (Hd : exists d, scenarioDetails (sessionDVs Sample.session Sample.midway) !! 1%nat
                           = Some d) by (eexists; reflexivity).
    destruct Hd as [d Hd]. exists d. split; [exact Hd |].
    assert (Hnone : forall r, r ∈ scenarioHistory Sample.session ->
                              st_scenarioId r = so_scenarioId (Sample.outcome 2 "Fairness") ->
                              usableTiming r = None).
    { intros r Hr Hid. cbn in Hr.
      apply elem_of_cons in Hr as [-> | Hr]; [discriminate Hid |].
      apply elem_of_cons in Hr as [-> | Hr]; [reflexivity |].
      by apply not_elem_of_nil in Hr. }
    destruct (untracked_detail_consistent Sample.session Sample.midway 1
                (Sample.outcome 2 "Fairness") d eq_refl Hd Hnone)
      as (_ & _ & _ & Hsw & _ & _ & _ & Hyes).
    assert (Ha : aligned d = true).
    { injection Hd as <-. reflexivity. }
    split; [exact (Hsw eq_refl) |]. split; [exact Ha | exact (Hyes Ha)].
  - assert (Hd : exists d, scenarioDetails (sessionDVs Sample.untimed Sample.midway) !! 1%nat
                           = Some d) by (eexists; reflexivity).
    destruct Hd as [d Hd]. exists d. split; [exact Hd |].
    assert (Hnone : forall r, r ∈ scenarioHistory Sample.untimed ->
                              st_scenarioId r = so_scenarioId (Sample.outcome 2 "Fairness") ->
                              usableTiming r = None).
    { intros r Hr Hid. cbn in Hr.
      apply elem_of_cons in Hr as [-> | Hr]; [reflexivity |].
      apply elem_of_cons in Hr as [-> | Hr]; [reflexivity |].
      by apply not_elem_of_nil in Hr. }
    destruct (untracked_detail_consistent Sample.untimed Sample.midway 1
                (Sample.outcome 2 "Fairness") d eq_refl Hd Hnone)
      as (Hv & Ha & _).
    assert (Hc : cvrVisitCount d = 2) by (injection Hd as <-; reflexivity).
    assert (Hr : apaReorderCount d = 1) by (injection Hd as <-; reflexivity).
    split; [exact Hc |]. split; [by rewrite Hv, Hc |].
    split; [exact Hr | by rewrite Ha, Hr].
Defined.

Lemma scenario_counts_within_totals_witness :
  NoDup (map so_scenarioId (simulationOutcomes Sample.untimed))
  /\ (forall r, r ∈ scenarioHistory Sample.untimed -> usableTiming r = None)
  /\ map cvrVisitCount (scenarioDetails (sessionDVs Sample.untimed Sample.midway)) = [1; 2; 0]
  /\ cvrArrivals (sessionDVs Sample.untimed Sample.midway) = 4
  /\ JS.sumZ (map cvrVisitCount (scenarioDetails (sessionDVs Sample.untimed Sample.midway)))
     <= cvrArrivals (sessionDVs Sample.untimed Sample.midway)
  /\ map cvrYesAnswers (scenarioDetails (sessionDVs Sample.untimed Sample.midway)) = [1; 0; 0]
  /\ cvrYesCount (sessionDVs Sample.untimed Sample.midway) = 2
  /\ JS.sumZ (map cvrYesAnswers (scenarioDetails (sessionDVs Sample.untimed Sample.midway)))
     <= cvrYesCount (sessionDVs Sample.untimed Sample.midway)
  /\ JS.sumZ (map apaReorderCount (scenarioDetails (sessionDVs Sample.untimed Sample.midway)))
     <= apaReorderings (sessionDVs Sample.untimed Sample.midway).
Proof.
  assert (Hnd : NoDup (map so_scenarioId (simulationOutcomes Sample.untimed))).
  { apply (bool_decide_unpack _). vm_compute. exact I. }
  assert (Hnone : forall r, r ∈ scenarioHistory Sample.untimed -> usableTiming r = None).
  { intros r Hr. cbn in Hr.
    apply elem_of_cons in Hr as [-> | Hr]; [reflexivity |].
    apply elem_of_cons in Hr as [-> | Hr]; [reflexivity |].
    by apply not_elem_of_nil in Hr. }
  destruct (scenario_counts_within_totals Sample.untimed Sample.midway Hnd Hnone)
    as (Hv & Hy & Ha).
  split; [exact Hnd |]. split; [exact Hnone |].
  split; [reflexivity |]. split; [reflexivity |]. split; [exact Hv |].
  split; [reflexivity |]. split; [reflexivity |]. split; [exact Hy | exact Ha].
Defined.

Lemma switchCountTotal_bounds_witness :
  exists d : ScenarioDetail,
    d ∈ scenarioDetails (sessionDVs Sample.session Sample.midway)
    /\ 0 <= switches d <= switchCountTotal (sessionDVs Sample.session Sample.midway).
Proof.
  assert (Htracked : forall r v, r ∈ scenarioHistory Sample.session ->
                                 switchCount r = Some v -> 0 <= v).
  { intros r v Hr Hv. cbn in Hr.
    apply elem_of_cons in Hr as [-> | Hr]; [injection Hv as <-; lia |].
    apply elem_of_cons in Hr as [-> | Hr]; [injection Hv as <-; lia |].
    by apply not_elem_of_nil in Hr. }
  assert (Hd : exists d, scenarioDetails (sessionDVs Sample.session Sample.midway) !! 0%nat
                         = Some d) by (eexists; reflexivity).
  destruct Hd as [d Hd]. exists d.
  assert (Hin : d ∈ scenarioDetails (sessionDVs Sample.session Sample.midway)).
  { apply list_elem_of_lookup. eauto. }
  split; [exact Hin |].
  exact (switchCountTotal_bounds Sample.session Sample.midway Htracked d Hin).
Defined.


Lemma effect_is_one_shot_only_when_silent_witness :
  inserted (useEffect Sample.session (useEffect Sample.session (freshPage false)))
  = inserted (useEffect Sample.session (freshPage false))
  /\ exists payload,
      inserted (useEffect Sample.both (useEffect Sample.both (freshPage false)))
      = [payload; payload].
Proof.
  assert (Hs : simulationOutcomes Sample.session <> []) by discriminate.
  assert (Hb : simulationOutcomes Sample.both <> []) by discriminate.
  destruct (effect_is_one_shot_only_when_silent Sample.session Sample.midway
              Hs eq_refl eq_refl) as [Hsilent _].
  destruct (effect_is_one_shot_only_when_silent Sample.both Sample.midway
              Hb eq_refl eq_refl) as [_ Hloud].
  split; [exact (proj1 (Hsilent eq_refl)) |].
  destruct (Hloud eq_refl) as (payload & _ & Htwice & _). exists payload. exact Htwice.
Defined.

Lemma reference_sets_lower_case_witness :
  "safety" ∈ referenceSet Sample.session 1 /\ JS.toLowerCase "safety" = "safety".
Proof.
  assert (Hin : "safety" ∈ referenceSet Sample.session 1) by apply list_elem_of_here.
  split; [exact Hin |]. exact (reference_sets_lower_case Sample.session 1 "safety" Hin).
Defined.


Lemma reorder_list_fallback_witness :
  simulationOutcomes Sample.inOrder !! 1%nat = Some (Sample.outcome 2 "Fairness")
  /\ moralValuesReorder Sample.inOrder = Some Malformed
  /\ referenceSet Sample.inOrder 2 = referenceSet Sample.inOrder 1.
Proof.
  split; [reflexivity |]. split; [reflexivity |].
  exact (proj1 (reorder_list_fallback Sample.inOrder Sample.midway 1
                  (Sample.outcome 2 "Fairness") eq_refl (or_introl eq_refl))
           (or_intror eq_refl)).
Defined.


Lemma composite_saturates_witness :
  calculatePerformanceComposite
    {| livesSaved := 20000; humanCasualties := 1000; firefightingResource := 40;
       infrastructureCondition := 75; biodiversityCondition := 60;
       propertiesCondition := 90; nuclearPowerStation := 100 |}
  = calculatePerformanceComposite
      {| livesSaved := 25000; humanCasualties := 1200; firefightingResource := 40;
         infrastructureCondition := 75; biodiversityCondition := 60;
         propertiesCondition := 90; nuclearPowerStation := 100 |}.
Proof.
  refine (proj1 (composite_saturates
            {| livesSaved := 25000; humanCasualties := 1200; firefightingResource := 40;
               infrastructureCondition := 75; biodiversityCondition := 60;
               propertiesCondition := 90; nuclearPowerStation := 100 |}
            20000 1000 _ _ _ _)); vm_compute; discriminate.
Defined.

Lemma balanceIndex_at_least_three_quarters_witness :
  nonNegative Sample.midway /\ onScale Sample.midway
  /\ (75 # 100 <= calculateBalanceIndex Sample.midway)%Q.
Proof.
  assert (Hm : nonNegative Sample.midway).
  { repeat split; vm_compute; discriminate. }
  assert (Hs : onScale Sample.midway).
  { repeat split; vm_compute; discriminate. }
  split; [exact Hm |]. split; [exact Hs |].
  exact (balanceIndex_at_least_three_quarters Sample.midway Hm Hs).
Defined.

Lemma event_counters_partition_witness :
  (forall e, e ∈ allEvents Sample.session -> event e = "cvr_answered" ->
             is_Some (cvrAnswer e))
  /\ cvrYesCount (sessionDVs Sample.session Sample.midway)
     + cvrNoCount (sessionDVs Sample.session Sample.midway) = 2.
Proof.
  assert (Hall : forall e, e ∈ allEvents Sample.session -> event e = "cvr_answered" ->
                           is_Some (cvrAnswer e)).
  { intros e He Hk. cbn in He.
    repeat (apply elem_of_cons in He as [-> | He]);
      first [ by apply not_elem_of_nil in He
            | discriminate Hk
            | exists true; reflexivity
            | exists false; reflexivity ]. }
  split; [exact Hall |].
  exact (proj2 (proj2 (proj2 (proj2
           (event_counters_partition Sample.session Sample.midway)))) Hall).
Defined.
